(** * Zenopay API: control numbers, payment status reconciliation and
      service delivery

    A shallow embedding of the reconciliation-and-redemption core of the
    Zenopay payment gateway (Node.js, Express, Mongoose):

    - [ControlNumber]            models/ControlNumber.js
    - [ControlNumberService]     services/controlNumberService.js
    - [ControlNumberController]  controllers/controlNumberController.js
    - [Payment]                  models/Payment.js
    - [Service]                  models/Service.js
    - [WebhookController]        controllers/webhookController.js
    - [ServiceController]        controllers/serviceController.js
    - [BankPaymentService]       services/bankPaymentService.js
    - [Transaction]              models/Transaction.js
    - [User]                     models/User.js

    Conventions.  A JavaScript [Date] is its number of milliseconds since the
    epoch, a [Z]; every [new Date()] / [Date.now()] of one synchronous stretch
    of code reads the same clock value, passed as the argument [now].
    Amounts are integral [Number]s.  Strings are ASCII.  A Mongoose collection
    is the list of its documents in natural order; a document in the hands of
    a request handler is a value of its record type, and only [save] writes it
    back to the collection. *)

From Stdlib Require Import String Ascii List ZArith Bool Lia PeanoNat.
From Stdlib Require Import DecimalString.
From Stdlib Require Decimal DecimalFacts DecimalPos.
Import ListNotations.

Local Open Scope string_scope.
Local Open Scope Z_scope.

(* ================================================================= *)
(** ** JavaScript values, object literals and string primitives *)

Module JS.

(** The values a property read on an object literal of strings can give:
    an own string, nothing, or what the literal inherits from
    [Object.prototype] (built-in functions, and [Object.prototype] itself
    under the key [__proto__]). *)
Inductive value : Type :=
| Undefined
| Str (s : string)
| Fn (name : string)
| ObjectPrototype.

(** ToBoolean. *)
Definition truthy (v : value) : bool :=
  match v with
  | Undefined => false
  | Str s => negb (s =? "")%string
  | Fn _ => true
  | ObjectPrototype => true
  end.

(** [a || b]. *)
Definition or (a b : value) : value := if truthy a then a else b.

(** [a === b]; two reads of the same built-in give the same object. *)
Definition strict_eq (a b : value) : bool :=
  match a, b with
  | Undefined, Undefined => true
  | Str s, Str t => (s =? t)%string
  | Fn f, Fn g => (f =? g)%string
  | ObjectPrototype, ObjectPrototype => true
  | _, _ => false
  end.

(** ToString, as used for property keys and template literals. *)
Definition toString (v : value) : string :=
  match v with
  | Undefined => "undefined"
  | Str s => s
  | Fn name => "function " ++ name ++ "() { [native code] }"
  | ObjectPrototype => "[object Object]"
  end.

Fixpoint assoc {A : Type} (key : string) (l : list (string * A)) : option A :=
  match l with
  | [] => None
  | (k, v) :: rest => if (k =? key)%string then Some v else assoc key rest
  end.

(** The properties every object literal inherits. *)
Definition objectPrototype : list (string * value) :=
  [ ("constructor", Fn "Object");
    ("toString", Fn "toString");
    ("toLocaleString", Fn "toLocaleString");
    ("valueOf", Fn "valueOf");
    ("hasOwnProperty", Fn "hasOwnProperty");
    ("isPrototypeOf", Fn "isPrototypeOf");
    ("propertyIsEnumerable", Fn "propertyIsEnumerable");
    ("__defineGetter__", Fn "__defineGetter__");
    ("__defineSetter__", Fn "__defineSetter__");
    ("__lookupGetter__", Fn "__lookupGetter__");
    ("__lookupSetter__", Fn "__lookupSetter__");
    ("__proto__", ObjectPrototype) ].

(** [literal[key]] for an object literal with own string properties
    [literal]: own properties first, then the prototype chain. *)
Definition get (literal : list (string * string)) (key : string) : value :=
  match assoc key literal with
  | Some s => Str s
  | None =>
      match assoc key objectPrototype with
      | Some v => v
      | None => Undefined
      end
  end.

(** [c.toUpperCase()] on one ASCII character. *)
Definition upper_ascii (c : ascii) : ascii :=
  let n := nat_of_ascii c in
  if (97 <=? n)%nat && (n <=? 122)%nat then ascii_of_nat (n - 32) else c.

(** [s.toUpperCase()]. *)
Fixpoint toUpperCase (s : string) : string :=
  match s with
  | EmptyString => EmptyString
  | String c rest => String (upper_ascii c) (toUpperCase rest)
  end.

(** Number-to-string conversion of an integer, as in a template literal. *)
Definition showZ (z : Z) : string := NilZero.string_of_int (Z.to_int z).

(** Truthiness of an optional string property ([undefined] or a string). *)
Definition truthy_opt (o : option string) : bool :=
  match o with
  | None => false
  | Some s => negb (s =? "")%string
  end.

Definition isHexDigit (c : ascii) : bool :=
  let n := nat_of_ascii c in
  ((48 <=? n)%nat && (n <=? 57)%nat)
  || ((65 <=? n)%nat && (n <=? 70)%nat)
  || ((97 <=? n)%nat && (n <=? 102)%nat).

Fixpoint allHex (s : string) : bool :=
  match s with
  | EmptyString => true
  | String c rest => isHexDigit c && allHex rest
  end.

End JS.

(* ================================================================= *)
(** ** Errors *)

(** What a [throw] carries.  [Prefixed p e] is
    [new Error(`${p}${e.message}`)]. *)
Inductive Error : Type :=
| Err (msg : string)
| EnumError (model path value : string)
| CastError (model path value : string)
| DuplicateKey (collection field value : string)
| Prefixed (prefix : string) (e : Error).

(** [error.message].  A validation error is rendered with the first path
    that fails. *)
Fixpoint message (e : Error) : string :=
  match e with
  | Err m => m
  | EnumError model path value =>
      model ++ " validation failed: " ++ path ++ ": `" ++ value
            ++ "` is not a valid enum value for path `" ++ path ++ "`."
  | CastError model path value =>
      model ++ " validation failed: " ++ path
            ++ ": Cast to ObjectId failed for value `" ++ value
            ++ "` at path `" ++ path ++ "`"
  | DuplicateKey collection field value =>
      "E11000 duplicate key error collection: " ++ collection
            ++ " index: " ++ field ++ " dup key: " ++ value
  | Prefixed p e' => p ++ message e'
  end.

(** Membership in a schema [enum]. *)
Definition inEnum (enum : list string) (s : string) : bool :=
  existsb (String.eqb s) enum.

(** Mongoose's cast of a string to an [ObjectId]: twelve characters, or
    twenty-four hexadecimal digits. *)
Definition castObjectId (s : string) : bool :=
  (Nat.eqb (String.length s) 12)
  || (Nat.eqb (String.length s) 24 && JS.allHex s).

(** Mongoose's cast of a value assigned to a [String] path.  A value that
    Mongoose refuses to cast invalidates the document; here it is kept as its
    ToString, which lies outside every schema enum. *)
Definition castString (v : JS.value) : string := JS.toString v.

(* ================================================================= *)
(** ** models/ControlNumber.js *)

Module ControlNumber.

Record UsedBy : Type := mkUsedBy {
  name : option string;
  phone : option string;
  network : option string
}.

Definition noUsedBy : UsedBy := mkUsedBy None None None.

Record t : Type := mk {
  _id : nat;
  controlNumber : string;
  prefix : string;
  amount : Z;
  currency : string;
  status : string;
  paymentReference : option string;
  usedAt : option Z;
  usedBy : UsedBy;
  expiresAt : Z;
  validUntil : Z;
  isReusable : bool;
  maxUses : Z;
  currentUses : Z
}.

Definition statusEnum : list string := ["active"; "used"; "expired"; "cancelled"].

Definition set_status (s : string) (cn : t) : t :=
  mk (_id cn) (controlNumber cn) (prefix cn) (amount cn) (currency cn) s
     (paymentReference cn) (usedAt cn) (usedBy cn) (expiresAt cn)
     (validUntil cn) (isReusable cn) (maxUses cn) (currentUses cn).

Definition set_usedAt (d : option Z) (cn : t) : t :=
  mk (_id cn) (controlNumber cn) (prefix cn) (amount cn) (currency cn)
     (status cn) (paymentReference cn) d (usedBy cn) (expiresAt cn)
     (validUntil cn) (isReusable cn) (maxUses cn) (currentUses cn).

Definition set_paymentReference (r : option string) (cn : t) : t :=
  mk (_id cn) (controlNumber cn) (prefix cn) (amount cn) (currency cn)
     (status cn) r (usedAt cn) (usedBy cn) (expiresAt cn)
     (validUntil cn) (isReusable cn) (maxUses cn) (currentUses cn).

Definition set_currentUses (n : Z) (cn : t) : t :=
  mk (_id cn) (controlNumber cn) (prefix cn) (amount cn) (currency cn)
     (status cn) (paymentReference cn) (usedAt cn) (usedBy cn) (expiresAt cn)
     (validUntil cn) (isReusable cn) (maxUses cn) n.

Definition set_usedBy (u : UsedBy) (cn : t) : t :=
  mk (_id cn) (controlNumber cn) (prefix cn) (amount cn) (currency cn)
     (status cn) (paymentReference cn) (usedAt cn) u (expiresAt cn)
     (validUntil cn) (isReusable cn) (maxUses cn) (currentUses cn).

(** virtual [isExpired]: [new Date() > this.expiresAt]. *)
Definition isExpired (now : Z) (cn : t) : bool := expiresAt cn <? now.

(** virtual [isValid]. *)
Definition isValid (now : Z) (cn : t) : bool :=
  (status cn =? "active")%string
  && (now <=? validUntil cn)
  && (currentUses cn <? maxUses cn).

(** [canBeUsed()]. *)
Definition canBeUsed (now : Z) (cn : t) : bool :=
  isValid now cn && negb (isExpired now cn).

(** [if (usedByInfo.f) this.usedBy.f = usedByInfo.f]. *)
Definition assignIfTruthy (new old : option string) : option string :=
  if JS.truthy_opt new then new else old.

(** [markAsUsed(paymentReference, usedByInfo = {})]; [inl] is the throw. *)
Definition markAsUsed (now : Z) (paymentRef : option string)
           (usedByInfo : UsedBy) (cn : t) : Error + t :=
  if negb (status cn =? "active")%string then
    inl (Err "Control number is not active")
  else
    let cn := set_status "used" cn in
    let cn := set_usedAt (Some now) cn in
    let cn := set_paymentReference paymentRef cn in
    let cn := set_currentUses (currentUses cn + 1) cn in
    let cn := set_usedBy
                (mkUsedBy
                   (assignIfTruthy (name usedByInfo) (name (usedBy cn)))
                   (assignIfTruthy (phone usedByInfo) (phone (usedBy cn)))
                   (assignIfTruthy (network usedByInfo) (network (usedBy cn))))
                cn in
    (* Check if should be deactivated after use *)
    if negb (isReusable cn) || (maxUses cn <=? currentUses cn) then
      inr (set_status "used" cn)
    else
      inr cn.

(** Schema validation run by [save()] on the paths the operations here
    assign: the [status] enum and the [ObjectId] cast of
    [paymentReference]. *)
Definition validate (cn : t) : option Error :=
  if negb (inEnum statusEnum (status cn)) then
    Some (EnumError "ControlNumber" "status" (status cn))
  else
    match paymentReference cn with
    | Some r =>
        if castObjectId r then None
        else Some (CastError "ControlNumber" "paymentReference" r)
    | None => None
    end.



End ControlNumber.

(* ================================================================= *)
(** ** models/Payment.js *)

Module Payment.

Record HistoryEntry : Type := mkEntry {
  h_status : string;
  h_message : string;
  h_source : option string;
  h_timestamp : Z
}.

Record t : Type := mk {
  _id : nat;
  orderId : string;
  reference : option string;
  paymentStatus : string;
  externalReference : option string;
  status : string;
  statusHistory : list HistoryEntry;
  completedAt : option Z;
  failedAt : option Z
}.

Definition statusEnum : list string :=
  ["pending"; "completed"; "failed"; "cancelled"].
Definition paymentStatusEnum : list string :=
  ["PENDING"; "COMPLETED"; "FAILED"; "CANCELLED"].
Definition sourceEnum : list string :=
  ["zenopay_api"; "webhook"; "manual"].

Definition set_status (s : string) (p : t) : t :=
  mk (_id p) (orderId p) (reference p) (paymentStatus p)
     (externalReference p) s (statusHistory p) (completedAt p) (failedAt p).

Definition set_statusHistory (h : list HistoryEntry) (p : t) : t :=
  mk (_id p) (orderId p) (reference p) (paymentStatus p)
     (externalReference p) (status p) h (completedAt p) (failedAt p).

Definition set_paymentStatus (s : string) (p : t) : t :=
  mk (_id p) (orderId p) (reference p) s
     (externalReference p) (status p) (statusHistory p) (completedAt p)
     (failedAt p).

Definition set_completedAt (d : option Z) (p : t) : t :=
  mk (_id p) (orderId p) (reference p) (paymentStatus p)
     (externalReference p) (status p) (statusHistory p) d (failedAt p).

Definition set_failedAt (d : option Z) (p : t) : t :=
  mk (_id p) (orderId p) (reference p) (paymentStatus p)
     (externalReference p) (status p) (statusHistory p) (completedAt p) d.

Definition set_externalReference (r : option string) (p : t) : t :=
  mk (_id p) (orderId p) (reference p) (paymentStatus p)
     r (status p) (statusHistory p) (completedAt p) (failedAt p).

Definition set_reference (r : option string) (p : t) : t :=
  mk (_id p) (orderId p) r (paymentStatus p)
     (externalReference p) (status p) (statusHistory p) (completedAt p)
     (failedAt p).

Definition zenopayStatusMap : list (string * string) :=
  [ ("pending", "PENDING");
    ("completed", "COMPLETED");
    ("failed", "FAILED");
    ("cancelled", "CANCELLED") ].

(** [updateStatus(newStatus, message = '', source = 'manual')]. *)
Definition updateStatus (now : Z) (newStatus : JS.value) (msg : string)
           (source : option string) (p : t) : t :=
  let oldStatus := status p in
  if negb (JS.strict_eq (JS.Str oldStatus) newStatus) then
    let p := set_status (castString newStatus) p in
    let p := set_statusHistory
               (statusHistory p
                ++ [mkEntry (castString newStatus) msg source now]) p in
    let p := set_paymentStatus
               (castString
                  (JS.or (JS.get zenopayStatusMap (JS.toString newStatus))
                         (JS.Str "PENDING"))) p in
    if JS.strict_eq newStatus (JS.Str "completed") then
      set_completedAt (Some now) p
    else if JS.strict_eq newStatus (JS.Str "failed") then
      set_failedAt (Some now) p
    else p
  else p.

(** [isCompleted()]. *)
Definition isCompleted (p : t) : bool :=
  (status p =? "completed")%string || (paymentStatus p =? "COMPLETED")%string.

Definition validateEntry (h : HistoryEntry) : option Error :=
  if negb (inEnum statusEnum (h_status h)) then
    Some (EnumError "Payment" "statusHistory.status" (h_status h))
  else
    match h_source h with
    | Some s =>
        if inEnum sourceEnum s then None
        else Some (EnumError "Payment" "statusHistory.source" s)
    | None => None
    end.

Fixpoint validateHistory (l : list HistoryEntry) : option Error :=
  match l with
  | [] => None
  | h :: rest =>
      match validateEntry h with
      | Some e => Some e
      | None => validateHistory rest
      end
  end.

(** Schema validation run by [save()]: the enums of [paymentStatus],
    [status] and of every [statusHistory] entry. *)
Definition validate (p : t) : option Error :=
  if negb (inEnum paymentStatusEnum (paymentStatus p)) then
    Some (EnumError "Payment" "paymentStatus" (paymentStatus p))
  else if negb (inEnum statusEnum (status p)) then
    Some (EnumError "Payment" "status" (status p))
  else validateHistory (statusHistory p).

(** [pre('save')]: a missing [reference] is copied from [orderId]. *)
Definition preSave (p : t) : t :=
  if negb (JS.truthy_opt (reference p)) && JS.truthy (JS.Str (orderId p))
  then set_reference (Some (orderId p)) p
  else p.

End Payment.

(* ================================================================= *)
(** ** models/Service.js *)

Module Service.

Record t : Type := mk {
  _id : nat;
  serviceId : string;
  paymentId : option nat;
  status : string;
  duration : option Z;            (* serviceData.duration, in days *)
  accessToken : option string;
  accessGrantedAt : option Z;
  expiresAt : option Z;
  lastAccessedAt : option Z;
  accessCount : Z;
  deliveredAt : option Z;
  deliveryAttempts : Z;
  lastDeliveryAttempt : option Z;
  deliveryStatus : string;
  deliveryError : option string;
  updatedAt : Z
}.

Definition statusEnum : list string :=
  ["pending"; "active"; "expired"; "cancelled"; "suspended"].
Definition deliveryStatusEnum : list string :=
  ["not_started"; "in_progress"; "completed"; "failed"].

Definition set_status (x : string) (s : t) : t :=
  mk (_id s) (serviceId s) (paymentId s) x (duration s) (accessToken s)
     (accessGrantedAt s) (expiresAt s) (lastAccessedAt s) (accessCount s)
     (deliveredAt s) (deliveryAttempts s) (lastDeliveryAttempt s)
     (deliveryStatus s) (deliveryError s) (updatedAt s).

Definition set_accessToken (x : option string) (s : t) : t :=
  mk (_id s) (serviceId s) (paymentId s) (status s) (duration s) x
     (accessGrantedAt s) (expiresAt s) (lastAccessedAt s) (accessCount s)
     (deliveredAt s) (deliveryAttempts s) (lastDeliveryAttempt s)
     (deliveryStatus s) (deliveryError s) (updatedAt s).

Definition set_accessGrantedAt (x : option Z) (s : t) : t :=
  mk (_id s) (serviceId s) (paymentId s) (status s) (duration s)
     (accessToken s) x (expiresAt s) (lastAccessedAt s) (accessCount s)
     (deliveredAt s) (deliveryAttempts s) (lastDeliveryAttempt s)
     (deliveryStatus s) (deliveryError s) (updatedAt s).

Definition set_expiresAt (x : option Z) (s : t) : t :=
  mk (_id s) (serviceId s) (paymentId s) (status s) (duration s)
     (accessToken s) (accessGrantedAt s) x (lastAccessedAt s) (accessCount s)
     (deliveredAt s) (deliveryAttempts s) (lastDeliveryAttempt s)
     (deliveryStatus s) (deliveryError s) (updatedAt s).

Definition set_lastAccessedAt (x : option Z) (s : t) : t :=
  mk (_id s) (serviceId s) (paymentId s) (status s) (duration s)
     (accessToken s) (accessGrantedAt s) (expiresAt s) x (accessCount s)
     (deliveredAt s) (deliveryAttempts s) (lastDeliveryAttempt s)
     (deliveryStatus s) (deliveryError s) (updatedAt s).

Definition set_accessCount (x : Z) (s : t) : t :=
  mk (_id s) (serviceId s) (paymentId s) (status s) (duration s)
     (accessToken s) (accessGrantedAt s) (expiresAt s) (lastAccessedAt s) x
     (deliveredAt s) (deliveryAttempts s) (lastDeliveryAttempt s)
     (deliveryStatus s) (deliveryError s) (updatedAt s).

Definition set_deliveredAt (x : option Z) (s : t) : t :=
  mk (_id s) (serviceId s) (paymentId s) (status s) (duration s)
     (accessToken s) (accessGrantedAt s) (expiresAt s) (lastAccessedAt s)
     (accessCount s) x (deliveryAttempts s) (lastDeliveryAttempt s)
     (deliveryStatus s) (deliveryError s) (updatedAt s).

Definition set_deliveryAttempts (x : Z) (s : t) : t :=
  mk (_id s) (serviceId s) (paymentId s) (status s) (duration s)
     (accessToken s) (accessGrantedAt s) (expiresAt s) (lastAccessedAt s)
     (accessCount s) (deliveredAt s) x (lastDeliveryAttempt s)
     (deliveryStatus s) (deliveryError s) (updatedAt s).

Definition set_lastDeliveryAttempt (x : option Z) (s : t) : t :=
  mk (_id s) (serviceId s) (paymentId s) (status s) (duration s)
     (accessToken s) (accessGrantedAt s) (expiresAt s) (lastAccessedAt s)
     (accessCount s) (deliveredAt s) (deliveryAttempts s) x
     (deliveryStatus s) (deliveryError s) (updatedAt s).

Definition set_deliveryStatus (x : string) (s : t) : t :=
  mk (_id s) (serviceId s) (paymentId s) (status s) (duration s)
     (accessToken s) (accessGrantedAt s) (expiresAt s) (lastAccessedAt s)
     (accessCount s) (deliveredAt s) (deliveryAttempts s)
     (lastDeliveryAttempt s) x (deliveryError s) (updatedAt s).

Definition set_deliveryError (x : option string) (s : t) : t :=
  mk (_id s) (serviceId s) (paymentId s) (status s) (duration s)
     (accessToken s) (accessGrantedAt s) (expiresAt s) (lastAccessedAt s)
     (accessCount s) (deliveredAt s) (deliveryAttempts s)
     (lastDeliveryAttempt s) (deliveryStatus s) x (updatedAt s).

Definition set_updatedAt (x : Z) (s : t) : t :=
  mk (_id s) (serviceId s) (paymentId s) (status s) (duration s)
     (accessToken s) (accessGrantedAt s) (expiresAt s) (lastAccessedAt s)
     (accessCount s) (deliveredAt s) (deliveryAttempts s)
     (lastDeliveryAttempt s) (deliveryStatus s) (deliveryError s) x.

(** Truthiness of [serviceData.duration]: a number other than zero. *)
Definition truthy_duration (d : option Z) : bool :=
  match d with
  | Some n => negb (n =? 0)
  | None => false
  end.

(** [activate()]. *)
Definition activate (now : Z) (s : t) : t :=
  let s := set_status "active" s in
  let s := set_accessGrantedAt (Some now) s in
  let s := set_deliveredAt (Some now) s in
  let s := set_deliveryStatus "completed" s in
  if truthy_duration (duration s) then
    match duration s with
    | Some d => set_expiresAt (Some (now + d * 24 * 60 * 60 * 1000)) s
    | None => s
    end
  else s.

(** [isAccessible()]. *)
Definition isAccessible (now : Z) (s : t) : bool :=
  if negb (status s =? "active")%string then false
  else
    match expiresAt s with
    | Some e => if e <? now then false else true
    | None => true
    end.

(** [recordAccess()]. *)
Definition recordAccess (now : Z) (s : t) : t :=
  let s := set_lastAccessedAt (Some now) s in
  set_accessCount (accessCount s + 1) s.

(** Schema validation run by [save()]: the two enums. *)
Definition validate (s : t) : option Error :=
  if negb (inEnum statusEnum (status s)) then
    Some (EnumError "Service" "status" (status s))
  else if negb (inEnum deliveryStatusEnum (deliveryStatus s)) then
    Some (EnumError "Service" "deliveryStatus" (deliveryStatus s))
  else None.

(** [pre('save')]. *)
Definition preSave (now : Z) (s : t) : t := set_updatedAt now s.

(** The query of the static [findExpired]:
    [{ status: 'active', expiresAt: { $lt: new Date() } }]. *)
Definition expiredQuery (now : Z) (s : t) : bool :=
  (status s =? "active")%string
  && match expiresAt s with
     | Some e => e <? now
     | None => false
     end.

End Service.

(* ================================================================= *)
(** ** The database and the effects of a request handler *)

Record DB : Type := mkDB {
  controlNumbers : list ControlNumber.t;
  payments : list Payment.t;
  services : list Service.t
}.

(** A computation reads and writes the database and either returns or
    throws; a throw keeps the writes made before it. *)
Definition M (A : Type) : Type := DB -> (Error + A) * DB.

Definition ret {A : Type} (a : A) : M A := fun db => (inr a, db).

Definition throw {A : Type} (e : Error) : M A := fun db => (inl e, db).

Definition bind {A B : Type} (m : M A) (k : A -> M B) : M B :=
  fun db =>
    match m db with
    | (inl e, db') => (inl e, db')
    | (inr a, db') => k a db'
    end.

(** [try { m } catch (error) { handler }]. *)
Definition try_catch {A : Type} (m : M A) (handler : Error -> M A) : M A :=
  fun db =>
    match m db with
    | (inl e, db') => handler e db'
    | (inr a, db') => (inr a, db')
    end.

(** A synchronous call that may throw. *)
Definition lift {A : Type} (r : Error + A) : M A := fun db => (r, db).

Notation "x <- m ;; k" := (bind m (fun x => k))
  (at level 61, m at next level, right associativity).
Notation "m ;;; k" := (bind m (fun _ => k))
  (at level 61, right associativity).

(** Replacement of the document(s) carrying the identifier of [d]. *)
Definition replaceById {A : Type} (id : A -> nat) (d : A) (c : list A) : list A :=
  map (fun x => if Nat.eqb (id x) (id d) then d else x) c.


Module ControlNumberModel.

(** [ControlNumber.findOne(query)]. *)
Definition findOne (query : ControlNumber.t -> bool) : M (option ControlNumber.t) :=
  fun db => (inr (find query (controlNumbers db)), db).

(** Modelled from the spec: the static [findOneWithTimeout] of the
    ControlNumber model is not among the sources; the registry is a
    persisted collection keyed by the code, so the static is taken to be the
    lookup [findOne] on that collection. *)
Definition findOneWithTimeout (query : ControlNumber.t -> bool)
  : M (option ControlNumber.t) := findOne query.

(** [doc.save()] of a document loaded from the collection. *)
Definition save (cn : ControlNumber.t) : M unit :=
  fun db =>
    match ControlNumber.validate cn with
    | Some e => (inl e, db)
    | None =>
        (inr tt,
         mkDB (replaceById ControlNumber._id cn (controlNumbers db))
              (payments db) (services db))
    end.


(** The first document that satisfies [query], updated in place. *)
Fixpoint updateFirst (query : ControlNumber.t -> bool)
         (update : ControlNumber.t -> ControlNumber.t)
         (l : list ControlNumber.t) : option ControlNumber.t * list ControlNumber.t :=
  match l with
  | [] => (None, [])
  | d :: rest =>
      if query d then (Some (update d), update d :: rest)
      else
        let (found, rest') := updateFirst query update rest in
        (found, d :: rest')
  end.

(** [ControlNumber.findOneAndUpdate(query, update, { new: true })]: one
    atomic operation of the database, which returns the updated document. *)
Definition findOneAndUpdate (query : ControlNumber.t -> bool)
           (update : ControlNumber.t -> ControlNumber.t)
  : M (option ControlNumber.t) :=
  fun db =>
    let (found, l) := updateFirst query update (controlNumbers db) in
    (inr found, mkDB l (payments db) (services db)).

End ControlNumberModel.

Module PaymentModel.

(** [Payment.findOne(query)]. *)
Definition findOne (query : Payment.t -> bool) : M (option Payment.t) :=
  fun db => (inr (find query (payments db)), db).

(** [payment.save()]: validation, then the pre-save hook, then the write. *)
Definition save (p : Payment.t) : M Payment.t :=
  fun db =>
    match Payment.validate p with
    | Some e => (inl e, db)
    | None =>
        let p' := Payment.preSave p in
        (inr p',
         mkDB (controlNumbers db)
              (replaceById Payment._id p' (payments db))
              (services db))
    end.

End PaymentModel.

Module ServiceModel.

(** [Service.findOne(query)]. *)
Definition findOne (query : Service.t -> bool) : M (option Service.t) :=
  fun db => (inr (find query (services db)), db).

(** [Service.find(query)]. *)
Definition find (query : Service.t -> bool) : M (list Service.t) :=
  fun db => (inr (filter query (services db)), db).

(** [service.save()]. *)
Definition save (now : Z) (s : Service.t) : M Service.t :=
  fun db =>
    match Service.validate s with
    | Some e => (inl e, db)
    | None =>
        let s' := Service.preSave now s in
        (inr s',
         mkDB (controlNumbers db) (payments db)
              (replaceById Service._id s' (services db)))
    end.

(** [.populate('paymentId')]: the referenced payment, or [null]. *)
Definition populatePayment (s : Service.t) : M (option Payment.t) :=
  fun db =>
    (inr match Service.paymentId s with
         | Some pid => List.find (fun p => Nat.eqb (Payment._id p) pid) (payments db)
         | None => None
         end, db).

(** [Service.findExpired()]. *)
Definition findExpired (now : Z) : M (list Service.t) :=
  find (Service.expiredQuery now).

End ServiceModel.

(** An Express response: [res.status(statusCode).json({ success, message,
    error, ...data })]. *)
Record Response (D : Type) : Type := mkResponse {
  statusCode : nat;
  success : bool;
  msg : string;
  error : option string;
  data : option D
}.
Arguments mkResponse {D}.
Arguments statusCode {D}.
Arguments success {D}.
Arguments msg {D}.
Arguments error {D}.
Arguments data {D}.

(* ================================================================= *)
(** ** services/controlNumberService.js *)

Module ControlNumberService.

Inductive ValidationResult : Type :=
| Invalid (message : string)
| Valid (controlNumber : string) (amount : Z) (currency : string)
        (expiresAt validUntil : Z) (isReusable : bool)
        (maxUses currentUses : Z).

Definition isValid (r : ValidationResult) : bool :=
  match r with
  | Invalid _ => false
  | Valid _ _ _ _ _ _ _ _ => true
  end.

(** The query [{ controlNumber: controlNumber.toUpperCase(), status: 'active' }]. *)
Definition activeQuery (controlNumber : string) (d : ControlNumber.t) : bool :=
  (ControlNumber.controlNumber d =? JS.toUpperCase controlNumber)%string
  && (ControlNumber.status d =? "active")%string.

(** [validateControlNumber(controlNumber)]. *)
Definition validateControlNumber (now : Z) (controlNumber : string)
  : M ValidationResult :=
  try_catch
    (if negb (JS.truthy (JS.Str controlNumber)) then
       throw (Err "Control number is required")
     else
       cn <- ControlNumberModel.findOne (activeQuery controlNumber) ;;
       match cn with
       | None => ret (Invalid "Control number not found or expired")
       | Some cn =>
           if ControlNumber.isExpired now cn then
             ret (Invalid "Control number has expired")
           else if negb (ControlNumber.canBeUsed now cn) then
             ret (Invalid "Control number cannot be used")
           else
             ret (Valid (ControlNumber.controlNumber cn)
                        (ControlNumber.amount cn)
                        (ControlNumber.currency cn)
                        (ControlNumber.expiresAt cn)
                        (ControlNumber.validUntil cn)
                        (ControlNumber.isReusable cn)
                        (ControlNumber.maxUses cn)
                        (ControlNumber.currentUses cn))
       end)
    (fun error => ret (Invalid (message error))).

Record PaymentData : Type := mkPaymentData {
  phoneNumber : option string;
  customerName : option string;
  network : option string
}.

Record UsageResult : Type := mkUsageResult {
  u_controlNumber : string;
  u_paymentReference : string;
  u_amount : Z;
  u_currency : string;
  u_status : string
}.

(** [`CN_${controlNumber}_${Date.now()}`]. *)
Definition makePaymentReference (controlNumber : string) (now : Z) : string :=
  "CN_" ++ controlNumber ++ "_" ++ JS.showZ now.

(** [useControlNumber(controlNumber, paymentData = {})]. *)
Definition useControlNumber (now : Z) (controlNumber : string)
           (paymentData : PaymentData) : M UsageResult :=
  try_catch
    (cn <- ControlNumberModel.findOne (activeQuery controlNumber) ;;
     match cn with
     | None => throw (Err "Control number not found or not active")
     | Some cn =>
         if negb (ControlNumber.canBeUsed now cn) then
           throw (Err "Control number cannot be used")
         else
           (* Mark as used *)
           let paymentReference := makePaymentReference controlNumber now in
           cn <- lift (ControlNumber.markAsUsed now (Some paymentReference)
                         (ControlNumber.mkUsedBy (customerName paymentData)
                                                 (phoneNumber paymentData)
                                                 (network paymentData))
                         cn) ;;
           ControlNumberModel.save cn ;;;
           ret (mkUsageResult (ControlNumber.controlNumber cn)
                              paymentReference
                              (ControlNumber.amount cn)
                              (ControlNumber.currency cn)
                              "used")
     end)
    (fun error => throw (Prefixed "Failed to use control number: " error)).



Record Cancellation : Type := mkCancellation {
  c_controlNumber : string;
  c_status : string
}.

(** [cancelControlNumber(controlNumber)]; the field [cancelledAt] of the
    update is not a path of the schema and is not stored. *)
Definition cancelControlNumber (controlNumber : string) : M Cancellation :=
  try_catch
    (cn <- ControlNumberModel.findOneAndUpdate (activeQuery controlNumber)
             (ControlNumber.set_status "cancelled") ;;
     match cn with
     | None => throw (Err "Control number not found or not active")
     | Some cn =>
         ret (mkCancellation (ControlNumber.controlNumber cn) "cancelled")
     end)
    (fun error => throw (Prefixed "Failed to cancel control number: " error)).

End ControlNumberService.

(* ================================================================= *)
(** ** controllers/controlNumberController.js *)

Module ControlNumberController.


(** A destructuring default: [field = d]. *)
Definition withDefault {A : Type} (d : A) (o : option A) : A :=
  match o with
  | Some a => a
  | None => d
  end.


Definition maxAttempts : nat := 10.

Inductive LoopOutcome : Type :=
| Unique (controlNumber : string) (attempts : nat)
| Exhausted (attempts : nat)
| OutOfFuel.

(** The [do { ... } while (await ControlNumber.findOneWithTimeout({
    controlNumber }))] loop.  [candidate i] is what the [i]-th call of the
    static [ControlNumber.generateControlNumber()] returns (a time-derived
    and random code); [attempts] is the counter of the loop. *)
Fixpoint generateLoop (candidate : nat -> string) (fuel attempts : nat)
  : M LoopOutcome :=
  match fuel with
  | O => ret OutOfFuel
  | S fuel' =>
      let controlNumber := candidate attempts in
      let attempts := S attempts in
      if (maxAttempts <=? attempts)%nat then ret (Exhausted attempts)
      else
        found <- ControlNumberModel.findOneWithTimeout
                   (fun d => (ControlNumber.controlNumber d =? controlNumber)%string) ;;
        match found with
        | Some _ => generateLoop candidate fuel' attempts
        | None => ret (Unique controlNumber attempts)
        end
  end.


Record Validated : Type := mkValidated {
  v_controlNumber : string;
  v_amount : Z;
  v_currency : string;
  v_expiresAt : Z
}.

Section Validate.

(** The static [ControlNumber.validateControlNumber] that the controller
    calls is not among the sources; it is a parameter, as is the built-in
    [parseFloat] ([None] stands for [NaN] and for any number that is not
    an integer). *)
Variable validateStatic : string -> M (option ControlNumber.t).
Variable parseFloat : string -> option Z.

(** [validateControlNumber(req, res)]; [amount] is [req.query.amount]. *)
Definition validateControlNumber (controlNumber : string)
           (amount : option string) : M (Response Validated) :=
  try_catch
    (controlNum <- validateStatic controlNumber ;;
     match controlNum with
     | None =>
         ret (mkResponse 404 false "Control number not found or expired"
                         None None)
     | Some controlNum =>
         (* Check if amount matches (if provided) *)
         let mismatch :=
           match amount with
           | Some a =>
               JS.truthy (JS.Str a)
               && negb match parseFloat a with
                       | Some n => n =? ControlNumber.amount controlNum
                       | None => false
                       end
           | None => false
           end in
         if mismatch then
           ret (mkResponse 400 false
                  ("Amount mismatch. Expected: "
                     ++ JS.showZ (ControlNumber.amount controlNum)
                     ++ ", Received: " ++ withDefault "" amount)
                  None None)
         else
           ret (mkResponse 200 true "" None
                  (Some (mkValidated
                           (ControlNumber.controlNumber controlNum)
                           (ControlNumber.amount controlNum)
                           (ControlNumber.currency controlNum)
                           (ControlNumber.expiresAt controlNum))))
     end)
    (fun error => ret (mkResponse 500 false (message error) None None)).

End Validate.

Record UseBody : Type := mkUseBody {
  b_paymentReference : option string;
  b_customerInfo : option ControlNumber.UsedBy;
  b_network : option string
}.

Record Used : Type := mkUsed {
  used_controlNumber : string;
  used_status : string;
  used_usedAt : option Z;
  used_usedBy : ControlNumber.UsedBy
}.

(** The first half of [useControlNumber]: the awaited read. *)
Definition useControlNumber_find (controlNumber : string)
  : M (option ControlNumber.t) :=
  ControlNumberModel.findOneWithTimeout
    (fun d => (ControlNumber.controlNumber d =? controlNumber)%string
              && (ControlNumber.status d =? "active")%string).

(** The second half: the checks, [markAsUsed] and the awaited [save]. *)
Definition useControlNumber_finish (now : Z) (body : UseBody)
           (controlNum : option ControlNumber.t) : M (Response Used) :=
  match controlNum with
  | None =>
      ret (mkResponse 404 false "Control number not found or already used"
                      None None)
  | Some controlNum =>
      if negb (ControlNumber.canBeUsed now controlNum) then
        ret (mkResponse 400 false "Control number is expired or invalid"
                        None None)
      else
        (* Mark as used *)
        controlNum <- lift (ControlNumber.markAsUsed now
                              (b_paymentReference body)
                              (withDefault ControlNumber.noUsedBy
                                           (b_customerInfo body))
                              controlNum) ;;
        ControlNumberModel.save controlNum ;;;
        ret (mkResponse 200 true
               "Control number marked as used successfully" None
               (Some (mkUsed (ControlNumber.controlNumber controlNum)
                             (ControlNumber.status controlNum)
                             (ControlNumber.usedAt controlNum)
                             (ControlNumber.usedBy controlNum))))
  end.

Definition onError {D : Type} (error : Error) : M (Response D) :=
  ret (mkResponse 500 false (message error) None None).

(** [useControlNumber(req, res)]. *)
Definition useControlNumber (now : Z) (controlNumber : string) (body : UseBody)
  : M (Response Used) :=
  try_catch
    (controlNum <- useControlNumber_find controlNumber ;;
     useControlNumber_finish now body controlNum)
    onError.

End ControlNumberController.

(* ================================================================= *)
(** ** controllers/webhookController.js *)

(** The handlers are methods of the controller object: [this] in
    [handleZenopayWebhook] is the controller whose [deliverServices] is
    called. *)
Module WebhookController.

Record WebhookData : Type := mkWebhookData {
  order_id : option string;
  payment_status : string;
  reference : option string;
  transaction_id : option string
}.

Record Processed : Type := mkProcessed {
  r_paymentId : nat;
  r_status : string
}.

Definition statusMap : list (string * string) :=
  [ ("COMPLETED", "completed");
    ("PENDING", "pending");
    ("PROCESSING", "processing");
    ("FAILED", "failed");
    ("CANCELLED", "cancelled") ].

(** [statusMap[payment_status] || 'pending']. *)
Definition mapStatus (payment_status : string) : JS.value :=
  JS.or (JS.get statusMap payment_status) (JS.Str "pending").

(** [deliverSingleService(service, payment)]; [token] is what
    [generateAccessToken()] returns when it is called.  The assignments
    made before the awaited [save] stay on the document that the [catch]
    block sees.  [notifyCustomer] only logs. *)
Definition deliverSingleService (now : Z) (token : string) (service : Service.t)
  : M unit :=
  let service := Service.set_deliveryAttempts
                   (Service.deliveryAttempts service + 1) service in
  let service := Service.set_lastDeliveryAttempt (Some now) service in
  (* Activate the service *)
  let service := Service.activate now service in
  let service := Service.set_deliveryStatus "completed" service in
  (* Generate access token if needed *)
  let service :=
    if negb (JS.truthy_opt (Service.accessToken service))
    then Service.set_accessToken (Some token) service
    else service in
  try_catch
    (ServiceModel.save now service ;;; ret tt)
    (fun error =>
       let service := Service.set_deliveryStatus "failed" service in
       let service := Service.set_deliveryError (Some (message error)) service in
       ServiceModel.save now service ;;;
       ret tt).

(** [for (const service of services) await deliverSingleService(...)];
    [tokens i] is the token drawn for the [i]-th service of the loop. *)
Fixpoint deliverEach (now : Z) (tokens : nat -> string) (i : nat)
         (l : list Service.t) : M unit :=
  match l with
  | [] => ret tt
  | service :: rest =>
      deliverSingleService now (tokens i) service ;;;
      deliverEach now tokens (S i) rest
  end.

(** [deliverServices(payment)]. *)
Definition deliverServices (now : Z) (tokens : nat -> string)
           (payment : Payment.t) : M unit :=
  try_catch
    ((* Find all services linked to this payment *)
     found <- ServiceModel.find
                (fun s =>
                   match Service.paymentId s with
                   | Some pid => Nat.eqb pid (Payment._id payment)
                   | None => false
                   end
                   && (Service.status s =? "pending")%string) ;;
     match found with
     | [] => ret tt
     | _ => deliverEach now tokens 0 found
     end)
    (fun _ => ret tt).

(** [handleZenopayWebhook(req, res)]. *)
Definition handleZenopayWebhook (now : Z) (tokens : nat -> string)
           (webhookData : WebhookData) : M (Response Processed) :=
  try_catch
    (if negb (JS.truthy_opt (order_id webhookData)) then
       ret (mkResponse 400 false "Order ID is required" None None)
     else
       (* Find the payment record *)
       payment <- PaymentModel.findOne
                    (fun p => match order_id webhookData with
                              | Some o => (Payment.orderId p =? o)%string
                              | None => false
                              end) ;;
       match payment with
       | None => ret (mkResponse 404 false "Payment not found" None None)
       | Some payment =>
           (* Update payment status *)
           let newStatus := mapStatus (payment_status webhookData) in
           payment <-
             (if negb (JS.strict_eq (JS.Str (Payment.status payment)) newStatus)
              then
                let payment :=
                  Payment.updateStatus now newStatus
                    ("Webhook: " ++ payment_status webhookData)
                    (Some "webhook") payment in
                let payment :=
                  Payment.set_externalReference (reference webhookData) payment in
                payment <- PaymentModel.save payment ;;
                (* If payment completed, deliver associated services *)
                (if JS.strict_eq newStatus (JS.Str "completed")
                 then deliverServices now tokens payment
                 else ret tt) ;;;
                ret payment
              else ret payment) ;;
           ret (mkResponse 200 true "Webhook processed successfully" None
                           (Some (mkProcessed (Payment._id payment)
                                              (Payment.status payment))))
       end)
    (fun error =>
       ret (mkResponse 500 false "Webhook processing failed"
                       (Some (message error)) None)).





End WebhookController.

(* ================================================================= *)
(** ** services/bankPaymentService.js *)

Module BankPaymentService.

Definition statusMap : list (string * string) :=
  [ ("INITIATED", "pending");
    ("PENDING", "pending");
    ("PROCESSING", "processing");
    ("IN_PROGRESS", "processing");
    ("COMPLETED", "completed");
    ("SUCCESSFUL", "completed");
    ("SETTLED", "completed");
    ("FAILED", "failed");
    ("REJECTED", "failed");
    ("CANCELLED", "cancelled");
    ("RETURNED", "failed") ].

(** [mapStatus(externalStatus)]. *)
Definition mapStatus (externalStatus : string) : JS.value :=
  JS.or (JS.get statusMap externalStatus) (JS.Str "pending").

Record CallbackData : Type := mkCallbackData {
  cd_reference : option string;
  cd_status : option string;
  cd_transactionId : option string
}.

Definition requiredFields : list string :=
  ["reference"; "status"; "transactionId"].

(** [data[field]]. *)
Definition field (data : CallbackData) (name : string) : option string :=
  if (name =? "reference")%string then cd_reference data
  else if (name =? "status")%string then cd_status data
  else if (name =? "transactionId")%string then cd_transactionId data
  else None.

Fixpoint checkFields (data : CallbackData) (fields : list string)
  : Error + unit :=
  match fields with
  | [] => inr tt
  | f :: rest =>
      if negb (JS.truthy_opt (field data f)) then
        inl (Err ("Missing required field: " ++ f))
      else checkFields data rest
  end.

(** [validateCallbackData(data)]; [inl] is the throw. *)
Definition validateCallbackData (data : CallbackData) : Error + unit :=
  checkFields data requiredFields.

End BankPaymentService.

(* ================================================================= *)
(** ** controllers/serviceController.js *)

Module ServiceController.

Record Access : Type := mkAccess {
  a_serviceId : string;
  a_status : string;
  a_accessToken : option string;
  a_expiresAt : option Z;
  a_lastAccessedAt : option Z;
  a_accessCount : Z
}.

(** [checkServiceAccess(req, res)]; a 200 response carries [access: true]. *)
Definition checkServiceAccess (now : Z) (serviceId : string)
  : M (Response Access) :=
  try_catch
    (service <- ServiceModel.findOne
                  (fun s => (Service.serviceId s =? serviceId)%string) ;;
     match service with
     | None => ret (mkResponse 404 false "Service not found" None None)
     | Some service =>
         payment <- ServiceModel.populatePayment service ;;
         (* Check if payment is completed *)
         let paid :=
           match payment with
           | Some p => (Payment.status p =? "completed")%string
           | None => false
           end in
         if negb paid then
           ret (mkResponse 402 false "Payment required" None None)
         else
           (* Activate service if not already active *)
           service <-
             (if negb (Service.status service =? "active")%string
              then ServiceModel.save now (Service.activate now service)
              else ret service) ;;
           (* Record access *)
           service <- ServiceModel.save now (Service.recordAccess now service) ;;
           ret (mkResponse 200 true "" None
                  (Some (mkAccess (Service.serviceId service)
                                  (Service.status service)
                                  (Service.accessToken service)
                                  (Service.expiresAt service)
                                  (Service.lastAccessedAt service)
                                  (Service.accessCount service))))
     end)
    (fun error => ret (mkResponse 500 false (message error) None None)).

(** [for (const service of expiredServices) { service.status = 'expired';
    await service.save(); }]. *)
Fixpoint markExpired (now : Z) (l : list Service.t) : M unit :=
  match l with
  | [] => ret tt
  | service :: rest =>
      ServiceModel.save now (Service.set_status "expired" service) ;;;
      markExpired now rest
  end.

(** [checkExpiredServices(req, res)]; the data of the response is
    [expiredCount]. *)
Definition checkExpiredServices (now : Z) : M (Response nat) :=
  try_catch
    (expiredServices <- ServiceModel.findExpired now ;;
     markExpired now expiredServices ;;;
     ret (mkResponse 200 true
            (JS.showZ (Z.of_nat (length expiredServices))
               ++ " services marked as expired")
            None (Some (length expiredServices))))
    (fun error => ret (mkResponse 500 false (message error) None None)).

End ServiceController.

(* ================================================================= *)
(** ** models/Transaction.js *)

Module Transaction.

Record Party : Type := mkParty {
  p_user : option string;
  p_account : option string;
  p_bank : option string;
  p_type : option string
}.

Record Fees : Type := mkFees {
  gatewayFee : Z;
  processingFee : Z;
  networkFee : Z
}.

Record t : Type := mk {
  _id : nat;
  transactionId : string;
  reference : option string;
  amount : Z;
  currency : string;
  from : Party;
  to : Party;
  status : string;
  fees : Fees;
  retryCount : Z
}.

Record Reversal : Type := mkReversal {
  r_transactionId : string;
  r_type : string;
  r_category : string;
  r_amount : Z;
  r_currency : string;
  r_reference : option string;
  r_description : string;
  r_originalTransaction : nat;
  r_from : Party;
  r_to : Party;
  r_status : string
}.

(** [n || 0] on a number. *)
Definition orZero (n : Z) : Z := if n =? 0 then 0 else n.

(** virtual [netAmount]. *)
Definition netAmount (tx : t) : Z :=
  amount tx - orZero (gatewayFee (fees tx)) - orZero (processingFee (fees tx))
  - orZero (networkFee (fees tx)).

(** [getTotalFees()]. *)
Definition getTotalFees (tx : t) : Z :=
  orZero (gatewayFee (fees tx)) + orZero (processingFee (fees tx))
  + orZero (networkFee (fees tx)).

(** [canRetry()]. *)
Definition canRetry (tx : t) : bool :=
  (status tx =? "failed")%string && (retryCount tx <? 3).

(** [incrementRetryCount()]. *)
Definition incrementRetryCount (tx : t) : t :=
  mk (_id tx) (transactionId tx) (reference tx) (amount tx) (currency tx)
     (from tx) (to tx) (status tx) (fees tx) (retryCount tx + 1).

(** [s.substring(3)]. *)
Definition substring3 (s : string) : string :=
  String.substring 3 (String.length s - 3) s.

(** [reverse(reason, amount = null)]; [None] is a missing or [null]
    amount. *)
Definition reverse (reason : string) (amt : option Z) (tx : t) : Reversal :=
  let reverseAmount :=
    match amt with
    | Some a => if a =? 0 then amount tx else a
    | None => amount tx
    end in
  mkReversal ("REV" ++ substring3 (transactionId tx)) "refund" "outgoing"
             reverseAmount (currency tx) (reference tx)
             ("Reversal of " ++ transactionId tx ++ ": " ++ reason)
             (_id tx) (to tx) (from tx) "pending".

End Transaction.

(* ================================================================= *)
(** ** models/User.js: the statistics of a merchant *)

Module User.

Record Statistics : Type := mkStatistics {
  totalTransactions : Z;
  totalVolume : Z;
  successfulTransactions : Z;
  failedTransactions : Z
}.

(** [updateStats(amount, status)]. *)
Definition updateStats (amount : Z) (status : string) (st : Statistics)
  : Statistics :=
  let st := mkStatistics (totalTransactions st + 1) (totalVolume st)
                         (successfulTransactions st) (failedTransactions st) in
  let st := mkStatistics (totalTransactions st) (totalVolume st + amount)
                         (successfulTransactions st) (failedTransactions st) in
  if (status =? "completed")%string then
    mkStatistics (totalTransactions st) (totalVolume st)
                 (successfulTransactions st + 1) (failedTransactions st)
  else if (status =? "failed")%string then
    mkStatistics (totalTransactions st) (totalVolume st)
                 (successfulTransactions st) (failedTransactions st + 1)
  else st.

End User.

(* ================================================================= *)
(** ** Concurrent redemption requests *)

(** Requests are served by one event loop: the code between two [await]s
    runs without interruption, and the awaited database operations of
    different requests interleave.  A redemption request of
    [ControlNumberController.useControlNumber] awaits one read and one
    write. *)
Module Concurrent.

Import ControlNumberController.

Inductive Request : Type :=
| Reading (now : Z) (controlNumber : string) (body : UseBody)
| Writing (now : Z) (body : UseBody) (controlNum : option ControlNumber.t)
| Finished (response : Response Used).

(** What a computation of a handler answers, its [catch] block included. *)
Definition respond {D : Type} (m : M (Response D)) (db : DB)
  : Response D * DB :=
  match try_catch m onError db with
  | (inr r, db') => (r, db')
  | (inl e, db') => (mkResponse 500 false (message e) None None, db')
  end.

(** One awaited database operation of a request. *)
Definition step (r : Request) (db : DB) : Request * DB :=
  match r with
  | Reading now controlNumber body =>
      match useControlNumber_find controlNumber db with
      | (inr found, db') => (Writing now body found, db')
      | (inl e, db') =>
          (Finished (mkResponse 500 false (message e) None None), db')
      end
  | Writing now body found =>
      let (response, db') := respond (useControlNumber_finish now body found) db in
      (Finished response, db')
  | Finished response => (r, db)
  end.

Fixpoint stepAt (i : nat) (rs : list Request) (db : DB) : list Request * DB :=
  match rs, i with
  | [], _ => ([], db)
  | r :: rest, O => let (r', db') := step r db in (r' :: rest, db')
  | r :: rest, S j => let (rest', db') := stepAt j rest db in (r :: rest', db')
  end.

(** [schedule] names, operation after operation, the request whose awaited
    operation the database serves next. *)
Fixpoint run (schedule : list nat) (rs : list Request) (db : DB)
  : list Request * DB :=
  match schedule with
  | [] => (rs, db)
  | i :: rest => let (rs', db') := stepAt i rs db in run rest rs' db'
  end.



End Concurrent.

(* ================================================================= *)
(** ** Predicates on the stored state *)

(** The payment a service points to is completed. *)
Definition paidFor (db : DB) (s : Service.t) : bool :=
  match Service.paymentId s with
  | Some pid =>
      match find (fun p => Nat.eqb (Payment._id p) pid) (payments db) with
      | Some p => (Payment.status p =? "completed")%string
      | None => false
      end
  | None => false
  end.

(** A candidate code is already in the registry. *)
Definition collides (db : DB) (c : string) : Prop :=
  find (fun d => (ControlNumber.controlNumber d =? c)%string)
       (controlNumbers db) <> None.

(** The codes of the registry are pairwise distinct (the unique index). *)
Definition uniqueCodes (db : DB) : Prop :=
  NoDup (map ControlNumber.controlNumber (controlNumbers db)).




(** Every stored control number has used at most the uses it allows. *)
Definition usesWithinLimit (db : DB) : Prop :=
  Forall (fun d => ControlNumber.currentUses d <= ControlNumber.maxUses d)
         (controlNumbers db).

(** Every stored service satisfies its schema. *)
Definition servicesValid (db : DB) : Prop :=
  Forall (fun s => Service.validate s = None) (services db).

(** What the expiry sweep at time [now] makes of a stored service. *)
Definition swept (now : Z) (s s' : Service.t) : Prop :=
  if Service.expiredQuery now s then
    s' = Service.preSave now (Service.set_status "expired" s)
  else s' = s.

(** What a granted access check of the service [s] at time [now] makes of a
    stored service. *)
Definition accessed (now : Z) (s x x' : Service.t) : Prop :=
  if Nat.eqb (Service._id x) (Service._id s) then
    Service.status x' = "active"
    /\ Service.accessCount x' = Service.accessCount x + 1
    /\ Service.lastAccessedAt x' = Some now
  else x' = x.

(** The words with which a bank reports an outcome that the table of the
    webhook does not list. *)
Definition bankOnlyStatuses : list string :=
  ["IN_PROGRESS"; "SUCCESSFUL"; "SETTLED"; "REJECTED"; "RETURNED"].

(** The properties of the registry that one operation preserves. *)
Definition preserved (db db' : DB) : Prop :=
  (usesWithinLimit db -> usesWithinLimit db')
  /\ (forall d, In d (controlNumbers db') ->
                ControlNumber.status d = "active" ->
                In d (controlNumbers db))
  /\ map ControlNumber._id (controlNumbers db')
     = map ControlNumber._id (controlNumbers db)
  /\ payments db' = payments db
  /\ services db' = services db.

(** What the loop of the expiry sweep over [l] makes of a stored service. *)
Definition sweptFrom (now : Z) (l : list Service.t) (x x' : Service.t) : Prop :=
  (~ In (Service._id x) (map Service._id l) /\ x' = x)
  \/ exists s, In s l /\ Service._id s = Service._id x
               /\ x' = Service.preSave now (Service.set_status "expired" s).

(** The [max] of the path [retryCount] in the schema of a transaction. *)
Definition retryCountMax : Z := 3.

(** [updateStats] called once for each transaction of [l], in order; a
    transaction is given by its amount and its status. *)
Definition recordAll (l : list (Z * string)) (st : User.Statistics)
  : User.Statistics :=
  fold_left (fun st e => User.updateStats (fst e) (snd e) st) l st.

(** The number of transactions of [l] that ended in [status]. *)
Definition countStatus (status : string) (l : list (Z * string)) : Z :=
  Z.of_nat (length (filter (fun e => (snd e =? status)%string) l)).

(* ================================================================= *)
(** ** The statements under examination and the data of the worked cases *)

Module Claims.

(** The canonical payment statuses. *)
Definition canonicalStatuses : list string :=
  ["pending"; "processing"; "completed"; "failed"; "cancelled"].

Definition canonical (v : JS.value) : bool :=
  match v with
  | JS.Str s => inEnum canonicalStatuses s
  | _ => false
  end.






(** The reasons named for an invalid code. *)
Inductive Reason : Type :=
| not_found
| inactive
| expired
| exhausted
| amount_mismatch.

(** The classification in the words of the specification; [None] is a
    valid code. *)
Definition classify (now : Z) (code : string) (expectedAmount : option Z)
           (db : DB) : option Reason :=
  match find (fun d => (ControlNumber.controlNumber d
                        =? JS.toUpperCase code)%string)
             (controlNumbers db) with
  | None => Some not_found
  | Some cn =>
      if negb (ControlNumber.status cn =? "active")%string then Some inactive
      else if (ControlNumber.expiresAt cn <? now)
              || (ControlNumber.validUntil cn <? now) then Some expired
      else if ControlNumber.maxUses cn <=? ControlNumber.currentUses cn
      then Some exhausted
      else
        match expectedAmount with
        | Some a =>
            if a =? ControlNumber.amount cn then None
            else Some amount_mismatch
        | None => None
        end
  end.

(** The outcomes of [validateControlNumber] tell the named reasons
    apart: some reading of its results gives, for every stored state, the
    reason of the classification. *)
Definition validate_classifies : Prop :=
  exists reading : ControlNumberService.ValidationResult -> option Reason,
    forall (now : Z) (code : string) (db : DB),
      code <> "" ->
      match fst (ControlNumberService.validateControlNumber now code db) with
      | inr result => reading result = classify now code None db
      | inl _ => False
      end.

Definition answersOk {D : Type} (r : Error + Response D) : bool :=
  match r with
  | inr response => Nat.eqb (statusCode response) 200
  | inl _ => false
  end.


(** Lookup is insensitive to the case of the code. *)
Definition case_insensitive : Prop :=
  forall (now : Z) (s : string) (paymentData : ControlNumberService.PaymentData)
         (db : DB),
    ControlNumberService.validateControlNumber now s db
    = ControlNumberService.validateControlNumber now (JS.toUpperCase s) db
    /\ ControlNumberService.useControlNumber now s paymentData db
       = ControlNumberService.useControlNumber now (JS.toUpperCase s)
           paymentData db.

(** What is left of an error, a result and a database once the payment
    reference is forgotten. *)
Fixpoint forgetReferenceE (e : Error) : Error :=
  match e with
  | CastError model path _ => CastError model path ""
  | Prefixed p e' => Prefixed p (forgetReferenceE e')
  | _ => e
  end.

Definition forgetReference
           (r : (Error + ControlNumberService.UsageResult) * DB)
  : (Error + ControlNumberService.UsageResult) * DB :=
  (match fst r with
   | inl e => inl (forgetReferenceE e)
   | inr u =>
       inr (ControlNumberService.mkUsageResult
              (ControlNumberService.u_controlNumber u) ""
              (ControlNumberService.u_amount u)
              (ControlNumberService.u_currency u)
              (ControlNumberService.u_status u))
   end,
   mkDB (map (ControlNumber.set_paymentReference None)
             (controlNumbers (snd r)))
        (payments (snd r)) (services (snd r))).

End Claims.

Module Fixtures.

(** 2026-01-01T00:00:00Z and one day later. *)
Definition t0 : Z := 1767225600000.
Definition day : Z := 24 * 60 * 60 * 1000.

Definition singleUseCode : ControlNumber.t :=
  ControlNumber.mk 1 "ZENO25600000K3QZ" "ZENO" 5000 "TZS" "active" None None
    ControlNumber.noUsedBy (t0 + day) (t0 + 7 * day) false 1 0.

Definition reusableCode : ControlNumber.t :=
  ControlNumber.mk 2 "ZENO25600001M8TB" "ZENO" 1200 "TZS" "active" None None
    ControlNumber.noUsedBy (t0 + day) (t0 + 7 * day) true 3 0.

Definition usedCode : ControlNumber.t :=
  ControlNumber.mk 3 "ZENO25600002A1CD" "ZENO" 700 "TZS" "used"
    (Some "65a1b2c3d4e5f60718293a4b") (Some t0)
    ControlNumber.noUsedBy (t0 + day) (t0 + 7 * day) false 1 1.

Definition registry : DB := mkDB [singleUseCode; reusableCode; usedCode] [] [].

Definition emptyDB : DB := mkDB [] [] [].

Definition plainBody : ControlNumberController.UseBody :=
  ControlNumberController.mkUseBody (Some "65a1b2c3d4e5f60718293a4b") None None.

Definition noPaymentData : ControlNumberService.PaymentData :=
  ControlNumberService.mkPaymentData None None None.

Definition created : Payment.HistoryEntry :=
  Payment.mkEntry "pending" "" (Some "manual") t0.

Definition pendingPayment : Payment.t :=
  Payment.mk 7 "ORDER-1" (Some "ORDER-1") "PENDING" None "pending"
    [created] None None.

Definition completedPayment : Payment.t :=
  Payment.mk 8 "ORDER-2" (Some "ORDER-2") "COMPLETED" None "completed"
    [created; Payment.mkEntry "completed" "Webhook: COMPLETED"
                              (Some "webhook") (t0 + 1000)]
    (Some (t0 + 1000)) None.

Definition pendingService : Service.t :=
  Service.mk 1 "SVC_1" (Some 7%nat) "pending" (Some 30) None None None None 0
    None 0 None "not_started" None t0.

Definition cancelledService : Service.t :=
  Service.mk 2 "SVC_2" (Some 7%nat) "cancelled" None None None None None 0
    None 0 None "not_started" None t0.

Definition expiredService : Service.t :=
  Service.mk 3 "SVC_3" (Some 8%nat) "expired" (Some 30) (Some "ACCESS_1")
    (Some (t0 - 40 * day)) (Some (t0 - 10 * day)) None 0
    (Some (t0 - 40 * day)) 1 (Some (t0 - 40 * day)) "completed" None t0.

Definition ledger : DB :=
  mkDB [] [pendingPayment; completedPayment]
       [pendingService; cancelledService; expiredService].

Definition webhook (orderId providerStatus : string)
  : WebhookController.WebhookData :=
  WebhookController.mkWebhookData (Some orderId) providerStatus
    (Some "REF-1") (Some "TXN-1").

Definition tokens (i : nat) : string := "ACCESS_" ++ JS.showZ (Z.of_nat i).

Definition customer : Transaction.Party :=
  Transaction.mkParty (Some "65a1b2c3d4e5f60718293a4c") None None
                      (Some "customer").

Definition merchant : Transaction.Party :=
  Transaction.mkParty None (Some "DEMO_MERCHANT") None (Some "merchant").

Definition settledTransaction : Transaction.t :=
  Transaction.mk 11 "TXN1767225600000K3QZ" (Some "ORDER-2") 5000 "TZS"
    customer merchant "completed" (Transaction.mkFees 100 0 0) 0.

Definition otherTransaction : Transaction.t :=
  Transaction.mk 12 "TXN1767225600500M8TB" (Some "ORDER-3") 1200 "TZS"
    customer merchant "completed" (Transaction.mkFees 0 0 0) 0.

End Fixtures.

(* ================================================================= *)
(** ** Redemption on the model: [markAsUsed] *)

Section MarkAsUsed.

Variables (now : Z) (paymentRef : option string)
          (usedByInfo : ControlNumber.UsedBy).

(** On an active code [markAsUsed] returns a document whose use counter
    went up by one, whose [usedAt] is the time of the call, and whose
    status is [used] in every case. *)
Lemma markAsUsed_active (cn : ControlNumber.t) :
  ControlNumber.status cn = "active" ->
  exists cn',
    ControlNumber.markAsUsed now paymentRef usedByInfo cn = inr cn'
    /\ ControlNumber.status cn' = "used"
    /\ ControlNumber.currentUses cn' = ControlNumber.currentUses cn + 1
    /\ ControlNumber.usedAt cn' = Some now
    /\ ControlNumber.paymentReference cn' = paymentRef
    /\ ControlNumber._id cn' = ControlNumber._id cn
    /\ ControlNumber.controlNumber cn' = ControlNumber.controlNumber cn.
Proof.
  intros Hactive.
  unfold ControlNumber.markAsUsed.
  rewrite Hactive, String.eqb_refl. cbn [negb].
  match goal with
  | |- context [if ?b then _ else _] => destruct b
  end; eexists; (split; [reflexivity | cbn; repeat split; reflexivity]).
Qed.

Lemma markAsUsed_inactive (cn : ControlNumber.t) :
  ControlNumber.status cn <> "active" ->
  ControlNumber.markAsUsed now paymentRef usedByInfo cn
  = inl (Err "Control number is not active").
Proof.
  intros Hne. unfold ControlNumber.markAsUsed.
  destruct (String.eqb_spec (ControlNumber.status cn) "active") as [E | _];
    [contradiction | reflexivity].
Qed.

End MarkAsUsed.

(** C4: a successful redemption leaves a reusable code with uses to spare in
    status active.  On the code this fails: the reusable code of the examples
    (three uses allowed, none made) is marked used by its first redemption,
    although it is reusable and one use is fewer than three. *)
Theorem markAsUsed_deactivates_reusable_code :
  exists cn',
    ControlNumber.markAsUsed Fixtures.t0 None ControlNumber.noUsedBy
                             Fixtures.reusableCode = inr cn'
    /\ ControlNumber.isReusable cn' = true
    /\ ControlNumber.currentUses cn' = 1
    /\ ControlNumber.maxUses cn' = 3
    /\ ControlNumber.usedAt cn' = Some Fixtures.t0
    /\ ControlNumber.status cn' = "used"
    /\ ControlNumber.canBeUsed Fixtures.t0 cn' = false.
Proof.
  eexists. split; [reflexivity |].
  repeat split.
Qed.

(* ================================================================= *)
(** ** Normalisation of provider statuses *)

Lemma get_own (literal : list (string * string)) (key s : string) :
  JS.assoc key literal = Some s -> JS.get literal key = JS.Str s.
Proof. intros H. unfold JS.get. now rewrite H. Qed.

Lemma get_absent (literal : list (string * string)) (key : string) :
  JS.assoc key literal = None ->
  JS.assoc key JS.objectPrototype = None ->
  JS.get literal key = JS.Undefined.
Proof. intros H1 H2. unfold JS.get. now rewrite H1, H2. Qed.

(** Away from the keys of [Object.prototype], the webhook table maps every
    provider status into the canonical set, and an absent one to pending. *)
Lemma webhook_mapStatus_canonical (payment_status : string) :
  JS.assoc payment_status JS.objectPrototype = None ->
  Claims.canonical (WebhookController.mapStatus payment_status) = true
  /\ (JS.assoc payment_status WebhookController.statusMap = None ->
      WebhookController.mapStatus payment_status = JS.Str "pending").
Proof.
  intros Hproto. unfold WebhookController.mapStatus.
  destruct (JS.assoc payment_status WebhookController.statusMap) as [s |] eqn:Hown.
  - rewrite (get_own _ _ _ Hown). split; [| discriminate].
    unfold WebhookController.statusMap in Hown. cbn [JS.assoc] in Hown.
    repeat match type of Hown with
           | (if ?b then _ else _) = _ => destruct b
           end; inversion Hown; reflexivity.
  - rewrite (get_absent _ _ Hown Hproto). split; reflexivity.
Qed.

Lemma bank_mapStatus_canonical (externalStatus : string) :
  JS.assoc externalStatus JS.objectPrototype = None ->
  Claims.canonical (BankPaymentService.mapStatus externalStatus) = true
  /\ (JS.assoc externalStatus BankPaymentService.statusMap = None ->
      BankPaymentService.mapStatus externalStatus = JS.Str "pending").
Proof.
  intros Hproto. unfold BankPaymentService.mapStatus.
  destruct (JS.assoc externalStatus BankPaymentService.statusMap) as [s |] eqn:Hown.
  - rewrite (get_own _ _ _ Hown). split; [| discriminate].
    unfold BankPaymentService.statusMap in Hown. cbn [JS.assoc] in Hown.
    repeat match type of Hown with
           | (if ?b then _ else _) = _ => destruct b
           end; inversion Hown; reflexivity.
  - rewrite (get_absent _ _ Hown Hproto). split; reflexivity.
Qed.

(** C9: every status string absent from the lookup table maps to pending and
    the mapping never leaves the canonical set.  On the code this fails for
    the strings that name a property of [Object.prototype]: the provider
    status [constructor] is in neither table, yet both lookups give the
    built-in function [Object], which is truthy, so the default is not taken
    and the mapped status is no canonical status. *)
Theorem mapStatus_inherited_key_escapes :
  JS.assoc "constructor" WebhookController.statusMap = None
  /\ WebhookController.mapStatus "constructor" = JS.Fn "Object"
  /\ Claims.canonical (WebhookController.mapStatus "constructor") = false
  /\ JS.assoc "constructor" BankPaymentService.statusMap = None
  /\ BankPaymentService.mapStatus "constructor" = JS.Fn "Object"
  /\ Claims.canonical (BankPaymentService.mapStatus "constructor") = false.
Proof. repeat split. Qed.

(* ================================================================= *)
(** ** The payment ledger: [updateStatus] and the webhook *)

Ltac run_handler :=
  unfold bind, ret, throw, try_catch, lift,
    PaymentModel.findOne, PaymentModel.save,
    ServiceModel.findOne, ServiceModel.find, ServiceModel.save,
    ServiceModel.populatePayment,
    ControlNumberModel.findOneWithTimeout, ControlNumberModel.findOne,
    ControlNumberModel.save.

Lemma strict_eq_str (s t : string) :
  JS.strict_eq (JS.Str s) (JS.Str t) = (s =? t)%string.
Proof. reflexivity. Qed.





(** The same through the webhook: a FAILED notification for the completed
    payment is answered 200 and the stored status is failed afterwards. *)
Example webhook_overwrites_completed :
  let (r, db') :=
    WebhookController.handleZenopayWebhook (Fixtures.t0 + 5000) Fixtures.tokens
      (Fixtures.webhook "ORDER-2" "FAILED") Fixtures.ledger in
  Claims.answersOk r = true
  /\ map Payment.status (payments db') = ["pending"; "failed"].
Proof. vm_compute. split; reflexivity. Qed.



(** A PROCESSING notification for a payment that is not yet processing is
    refused by the schema of the payment: [processing] is not in the enum of
    [status], [save] throws, the handler answers 500 and nothing is
    stored. *)
Lemma webhook_processing_is_refused (now : Z) (tokens : nat -> string)
      (wd : WebhookController.WebhookData) (db : DB) (o : string)
      (p : Payment.t) :
  WebhookController.order_id wd = Some o ->
  o <> "" ->
  WebhookController.payment_status wd = "PROCESSING" ->
  find (fun x => (Payment.orderId x =? o)%string) (payments db) = Some p ->
  Payment.status p <> "processing" ->
  WebhookController.handleZenopayWebhook now tokens wd db
  = (inr (mkResponse 500 false "Webhook processing failed"
            (Some (message (EnumError "Payment" "status" "processing"))) None),
     db).
Proof.
  intros Ho Hne Hst Hfind Hstatus.
  unfold WebhookController.handleZenopayWebhook. run_handler.
  rewrite Ho, Hst. cbn [JS.truthy_opt].
  destruct (String.eqb_spec o "") as [E | _]; [contradiction |].
  cbn [negb]. rewrite Hfind.
  change (WebhookController.mapStatus "PROCESSING") with (JS.Str "processing").
  rewrite strict_eq_str.
  destruct (String.eqb_spec (Payment.status p) "processing") as [E | _];
    [contradiction |].
  cbn [negb].
  unfold Payment.updateStatus. rewrite strict_eq_str.
  destruct (String.eqb_spec (Payment.status p) "processing") as [E | _];
    [contradiction |].
  reflexivity.
Qed.

(** C8: applying processing to a pending payment succeeds and the stored
    status is processing afterwards.  On the code this fails: the table of the
    webhook maps PROCESSING to [processing], which the enum of [status] in the
    schema of the payment does not list; for the pending payment of the worked
    cases the webhook is answered 500, "Webhook processing failed", and the
    ledger is left as it was, the payment still pending. *)
Theorem webhook_processing_leaves_pending :
  WebhookController.mapStatus "PROCESSING" = JS.Str "processing"
  /\ inEnum Payment.statusEnum "processing" = false
  /\ Payment.status Fixtures.pendingPayment = "pending"
  /\ (let (r, db') :=
        WebhookController.handleZenopayWebhook (Fixtures.t0 + 5000)
          Fixtures.tokens (Fixtures.webhook "ORDER-1" "PROCESSING")
          Fixtures.ledger in
      match r with
      | inr response =>
          statusCode response = 500%nat
          /\ success response = false
          /\ msg response = "Webhook processing failed"
      | inl _ => False
      end
      /\ db' = Fixtures.ledger
      /\ map Payment.status (payments db') = ["pending"; "completed"]).
Proof.
  split; [reflexivity |]. split; [reflexivity |]. split; [reflexivity |].
  rewrite (webhook_processing_is_refused _ _ _ _ "ORDER-1"
             Fixtures.pendingPayment);
    try reflexivity; try discriminate.
  repeat split.
Qed.

(* ================================================================= *)
(** ** Collections *)

Section ReplaceById.

Context {A : Type} (id : A -> nat).

Lemma map_replaceById {B : Type} (f : A -> B) (d : A) (c : list A) :
  map f (replaceById id d c)
  = map (fun x => if Nat.eqb (id x) (id d) then f d else f x) c.
Proof.
  unfold replaceById. rewrite map_map. apply map_ext.
  intros x. now destruct (Nat.eqb (id x) (id d)).
Qed.

Lemma ids_replaceById (d : A) (c : list A) :
  map id (replaceById id d c) = map id c.
Proof.
  rewrite map_replaceById. rewrite <- (map_id (map id c)) at 1.
  rewrite map_map. apply map_ext. intros x.
  destruct (Nat.eqb_spec (id x) (id d)); congruence.
Qed.

Lemma In_replaceById (d x : A) (c : list A) :
  In x (replaceById id d c) -> x = d \/ (In x c /\ id x <> id d).
Proof.
  unfold replaceById. rewrite in_map_iff. intros [y [Hy Hin]].
  destruct (Nat.eqb_spec (id y) (id d)) as [E | E].
  - left. now symmetry.
  - right. subst. now split.
Qed.

End ReplaceById.

(* ================================================================= *)
(** ** Access to a service *)

Lemma isAccessible_iff (now : Z) (s : Service.t) :
  Service.isAccessible now s = true
  <-> Service.status s = "active"
      /\ (Service.expiresAt s = None
          \/ exists e, Service.expiresAt s = Some e /\ now <= e).
Proof.
  unfold Service.isAccessible.
  destruct (String.eqb_spec (Service.status s) "active") as [E | E]; cbn [negb].
  - destruct (Service.expiresAt s) as [e |].
    + destruct (Z.ltb_spec e now) as [Hlt | Hge]; split.
      * discriminate.
      * intros [_ [Hnone | [e' [He' Hle]]]]; [discriminate Hnone |].
        inversion He'. subst e'. lia.
      * intros _. split; [exact E |]. right. exists e.
        split; [reflexivity | assumption].
      * reflexivity.
    + split; [intros _; split; [exact E | left; reflexivity] | reflexivity].
  - split; [discriminate | intros [Hact _]; contradiction].
Qed.

Lemma activate_cases (now : Z) (s : Service.t) :
  Service.activate now s
  = Service.set_deliveryStatus "completed"
      (Service.set_deliveredAt (Some now)
         (Service.set_accessGrantedAt (Some now) (Service.set_status "active" s)))
  \/ exists d,
      Service.activate now s
      = Service.set_expiresAt (Some (now + d * 24 * 60 * 60 * 1000))
          (Service.set_deliveryStatus "completed"
             (Service.set_deliveredAt (Some now)
                (Service.set_accessGrantedAt (Some now)
                   (Service.set_status "active" s)))).
Proof.
  unfold Service.activate.
  change (Service.duration
            (Service.set_deliveryStatus "completed"
               (Service.set_deliveredAt (Some now)
                  (Service.set_accessGrantedAt (Some now)
                     (Service.set_status "active" s)))))
    with (Service.duration s).
  destruct (Service.duration s) as [d |]; cbn [Service.truthy_duration].
  - destruct (negb (d =? 0)); [right; exists d; reflexivity | left; reflexivity].
  - left; reflexivity.
Qed.

Lemma validate_activate (now : Z) (s : Service.t) :
  Service.validate (Service.activate now s) = None.
Proof.
  destruct (activate_cases now s) as [E | [d E]]; rewrite E; vm_compute; reflexivity.
Qed.

Lemma status_activate (now : Z) (s : Service.t) :
  Service.status (Service.activate now s) = "active"
  /\ Service._id (Service.activate now s) = Service._id s.
Proof.
  destruct (activate_cases now s) as [E | [d E]]; rewrite E; split; reflexivity.
Qed.





(* ================================================================= *)
(** ** Generation of control numbers *)

Section Generation.

Import ControlNumberController.

Variable candidate : nat -> string.

(** Whatever the counter, with fuel enough to reach the budget the loop
    returns, leaves the registry alone, and has drawn at most
    [maxAttempts] candidates. *)
Lemma generateLoop_returns (db : DB) :
  forall (fuel attempts : nat),
    (attempts < maxAttempts)%nat ->
    (maxAttempts <= fuel + attempts)%nat ->
    exists outcome,
      generateLoop candidate fuel attempts db = (inr outcome, db)
      /\ match outcome with
         | Unique c n =>
             (attempts < n < maxAttempts)%nat
             /\ c = candidate (pred n)
             /\ ~ collides db c
         | Exhausted n =>
             n = maxAttempts
         | OutOfFuel => False
         end.
Proof.
  induction fuel as [| fuel IH]; intros attempts Hlt Hfuel.
  - exfalso. lia.
  - cbn [generateLoop].
    destruct (Nat.leb_spec maxAttempts (S attempts)) as [Hmax | Hmax].
    + exists (Exhausted (S attempts)). split; [reflexivity | lia].
    + run_handler.
      destruct (find (fun d => (ControlNumber.controlNumber d
                                =? candidate attempts)%string)
                     (controlNumbers db)) as [d |] eqn:Hfind.
      * destruct (IH (S attempts)) as [outcome [Hrun Hout]]; [lia | lia |].
        exists outcome. split; [exact Hrun |].
        destruct outcome as [c n | n |]; [| exact Hout | exact Hout].
        destruct Hout as [Hn Hc]. split; [lia | exact Hc].
      * exists (Unique (candidate attempts) (S attempts)).
        split; [reflexivity |].
        split; [lia |]. split; [reflexivity |].
        unfold collides. rewrite Hfind. intros Hne. apply Hne. reflexivity.
Qed.

(** When every draw collides, the loop ends on its budget. *)
Lemma generateLoop_exhausted (db : DB) :
  forall (fuel attempts : nat),
    (attempts < maxAttempts)%nat ->
    (maxAttempts <= fuel + attempts)%nat ->
    (forall i, (i < maxAttempts)%nat -> collides db (candidate i)) ->
    generateLoop candidate fuel attempts db
    = (inr (Exhausted maxAttempts), db).
Proof.
  intros fuel attempts Hlt Hfuel Hall.
  destruct (generateLoop_returns db fuel attempts Hlt Hfuel)
    as [outcome [Hrun Hout]].
  rewrite Hrun.
  destruct outcome as [c n | n |].
  - exfalso. destruct Hout as [Hn [Hc Hfree]].
    apply Hfree. rewrite Hc. apply Hall. lia.
  - rewrite Hout. reflexivity.
  - contradiction.
Qed.



End Generation.






(* ================================================================= *)
(** ** Validation and use of a control number by the service *)

Lemma upper_ascii_idem (c : ascii) :
  JS.upper_ascii (JS.upper_ascii c) = JS.upper_ascii c.
Proof.
  destruct c as [[] [] [] [] [] [] [] []]; vm_compute; reflexivity.
Qed.

Lemma toUpperCase_idem (s : string) :
  JS.toUpperCase (JS.toUpperCase s) = JS.toUpperCase s.
Proof.
  induction s as [| c s IH]; [reflexivity |].
  cbn [JS.toUpperCase]. rewrite upper_ascii_idem, IH. reflexivity.
Qed.

Lemma toUpperCase_length (s : string) :
  String.length (JS.toUpperCase s) = String.length s.
Proof.
  induction s as [| c s IH]; [reflexivity |].
  cbn [JS.toUpperCase String.length]. rewrite IH. reflexivity.
Qed.

Lemma toUpperCase_empty (s : string) :
  (JS.toUpperCase s =? "")%string = (s =? "")%string.
Proof. destruct s; reflexivity. Qed.

Lemma append_length (a b : string) :
  String.length (a ++ b) = (String.length a + String.length b)%nat.
Proof.
  induction a as [| c a IH]; [reflexivity |].
  cbn [String.append String.length]. rewrite IH. reflexivity.
Qed.

Lemma activeQuery_upper (s : string) (d : ControlNumber.t) :
  ControlNumberService.activeQuery (JS.toUpperCase s) d
  = ControlNumberService.activeQuery s d.
Proof.
  unfold ControlNumberService.activeQuery. rewrite toUpperCase_idem.
  reflexivity.
Qed.

Lemma find_active_upper (s : string) (l : list ControlNumber.t) :
  find (ControlNumberService.activeQuery (JS.toUpperCase s)) l
  = find (ControlNumberService.activeQuery s) l.
Proof.
  induction l as [| d l IH]; [reflexivity |].
  cbn [find]. rewrite activeQuery_upper, IH. reflexivity.
Qed.

(** The result of [validateControlNumber], case by case. *)
Lemma validateControlNumber_eq (now : Z) (code : string) (db : DB) :
  ControlNumberService.validateControlNumber now code db
  = (inr (if (code =? "")%string then
            ControlNumberService.Invalid "Control number is required"
          else
            match find (ControlNumberService.activeQuery code)
                       (controlNumbers db) with
            | None =>
                ControlNumberService.Invalid "Control number not found or expired"
            | Some cn =>
                if ControlNumber.isExpired now cn then
                  ControlNumberService.Invalid "Control number has expired"
                else if negb (ControlNumber.canBeUsed now cn) then
                  ControlNumberService.Invalid "Control number cannot be used"
                else
                  ControlNumberService.Valid
                    (ControlNumber.controlNumber cn) (ControlNumber.amount cn)
                    (ControlNumber.currency cn) (ControlNumber.expiresAt cn)
                    (ControlNumber.validUntil cn) (ControlNumber.isReusable cn)
                    (ControlNumber.maxUses cn) (ControlNumber.currentUses cn)
            end),
     db).
Proof.
  unfold ControlNumberService.validateControlNumber. run_handler.
  cbn [JS.truthy].
  destruct (code =? "")%string; cbn [negb]; [reflexivity |].
  destruct (find (ControlNumberService.activeQuery code) (controlNumbers db))
    as [cn |]; [| reflexivity].
  destruct (ControlNumber.isExpired now cn); [reflexivity |].
  destruct (ControlNumber.canBeUsed now cn); reflexivity.
Qed.

Lemma find_none_iff {A : Type} (q : A -> bool) (l : list A) :
  (forall x, In x l -> q x = false) -> find q l = None.
Proof.
  induction l as [| a l IH]; intros H; [reflexivity |].
  cbn [find]. rewrite (H a (or_introl eq_refl)).
  apply IH. intros x Hx. apply H. right. exact Hx.
Qed.

(** C6 (as stated): the outcomes tell not-found from inactive (and expired
    from exhausted).  They do not: for a used code and for a code that was
    never issued the service returns the same result, so no reading of its
    results gives the named reasons. *)
Lemma validate_cannot_tell_inactive_from_missing :
  ~ Claims.validate_classifies.
Proof.
  intros [reading Hreading].
  assert (Hne1 : ControlNumber.controlNumber Fixtures.usedCode <> "")
    by (vm_compute; discriminate).
  assert (Hne2 : "ZENO00000000NONE" <> "") by discriminate.
  pose proof (Hreading Fixtures.t0
                (ControlNumber.controlNumber Fixtures.usedCode)
                Fixtures.registry Hne1) as H1.
  pose proof (Hreading Fixtures.t0 "ZENO00000000NONE" Fixtures.registry Hne2)
    as H2.
  assert (E1 : fst (ControlNumberService.validateControlNumber Fixtures.t0
                      (ControlNumber.controlNumber Fixtures.usedCode)
                      Fixtures.registry)
               = inr (ControlNumberService.Invalid
                        "Control number not found or expired"))
    by (vm_compute; reflexivity).
  assert (E2 : fst (ControlNumberService.validateControlNumber Fixtures.t0
                      "ZENO00000000NONE" Fixtures.registry)
               = inr (ControlNumberService.Invalid
                        "Control number not found or expired"))
    by (vm_compute; reflexivity).
  assert (C1 : Claims.classify Fixtures.t0
                 (ControlNumber.controlNumber Fixtures.usedCode) None
                 Fixtures.registry = Some Claims.inactive)
    by (vm_compute; reflexivity).
  assert (C2 : Claims.classify Fixtures.t0 "ZENO00000000NONE" None
                 Fixtures.registry = Some Claims.not_found)
    by (vm_compute; reflexivity).
  rewrite E1, C1 in H1. rewrite E2, C2 in H2.
  rewrite H1 in H2. discriminate H2.
Qed.

(** C6 (amended): [validateControlNumber] is read-only, and it classifies
    with three messages.  A code that is not stored, or is stored with a
    status other than active, is answered "Control number not found or
    expired"; an active code past [expiresAt] is answered "Control number has
    expired"; an active code not past [expiresAt] that is past [validUntil] or
    has no use left is answered "Control number cannot be used"; any other
    active code is valid.  The amount is compared by the controller only:
    when an amount is supplied and differs from the stored one the answer is
    400, "Amount mismatch". *)
Theorem validate_is_read_only_with_three_messages :
  (forall (now : Z) (code : string) (db : DB),
      snd (ControlNumberService.validateControlNumber now code db) = db)
  /\ (forall (now : Z) (code : string) (db : DB),
         code <> "" ->
         (forall d, In d (controlNumbers db) ->
                    ControlNumber.controlNumber d = JS.toUpperCase code ->
                    ControlNumber.status d <> "active") ->
         fst (ControlNumberService.validateControlNumber now code db)
         = inr (ControlNumberService.Invalid
                  "Control number not found or expired"))
  /\ (forall (now : Z) (code : string) (db : DB) (cn : ControlNumber.t),
         code <> "" ->
         find (ControlNumberService.activeQuery code) (controlNumbers db)
         = Some cn ->
         fst (ControlNumberService.validateControlNumber now code db)
         = inr (if ControlNumber.expiresAt cn <? now then
                  ControlNumberService.Invalid "Control number has expired"
                else if (ControlNumber.validUntil cn <? now)
                        || (ControlNumber.maxUses cn
                            <=? ControlNumber.currentUses cn) then
                  ControlNumberService.Invalid "Control number cannot be used"
                else
                  ControlNumberService.Valid
                    (ControlNumber.controlNumber cn) (ControlNumber.amount cn)
                    (ControlNumber.currency cn) (ControlNumber.expiresAt cn)
                    (ControlNumber.validUntil cn) (ControlNumber.isReusable cn)
                    (ControlNumber.maxUses cn) (ControlNumber.currentUses cn)))
  /\ (forall (validateStatic : string -> M (option ControlNumber.t))
             (parseFloat : string -> option Z)
             (code a : string) (db db' : DB) (cn : ControlNumber.t),
         validateStatic code db = (inr (Some cn), db') ->
         a <> "" ->
         parseFloat a <> Some (ControlNumber.amount cn) ->
         ControlNumberController.validateControlNumber validateStatic parseFloat
           code (Some a) db
         = (inr (mkResponse 400 false
                   ("Amount mismatch. Expected: "
                      ++ JS.showZ (ControlNumber.amount cn)
                      ++ ", Received: " ++ a) None None),
            db')).
Proof.
  split; [intros; rewrite validateControlNumber_eq; reflexivity |].
  split.
  { intros now code db Hne Hinactive.
    rewrite validateControlNumber_eq. cbn [fst].
    destruct (String.eqb_spec code "") as [E | _]; [contradiction |].
    rewrite find_none_iff; [reflexivity |].
    intros d Hd. unfold ControlNumberService.activeQuery.
    destruct (String.eqb_spec (ControlNumber.controlNumber d)
                              (JS.toUpperCase code)) as [Ecode | _];
      [| reflexivity].
    destruct (String.eqb_spec (ControlNumber.status d) "active") as [Eact | _];
      [| reflexivity].
    exfalso. exact (Hinactive d Hd Ecode Eact). }
  split.
  { intros now code db cn Hne Hfind.
    rewrite validateControlNumber_eq. cbn [fst].
    destruct (String.eqb_spec code "") as [E | _]; [contradiction |].
    rewrite Hfind.
    apply find_some in Hfind. destruct Hfind as [_ Hq].
    unfold ControlNumberService.activeQuery in Hq.
    apply andb_true_iff in Hq. destruct Hq as [_ Hact].
    unfold ControlNumber.isExpired, ControlNumber.canBeUsed,
      ControlNumber.isValid, ControlNumber.isExpired.
    rewrite Hact. cbn [andb].
    destruct (Z.ltb_spec (ControlNumber.expiresAt cn) now) as [He | He];
      [reflexivity |].
    destruct (Z.leb_spec now (ControlNumber.validUntil cn)) as [Hv | Hv];
      destruct (Z.ltb_spec (ControlNumber.validUntil cn) now) as [Hv' | Hv'];
      try lia;
      destruct (Z.ltb_spec (ControlNumber.currentUses cn)
                           (ControlNumber.maxUses cn)) as [Hu | Hu];
      destruct (Z.leb_spec (ControlNumber.maxUses cn)
                           (ControlNumber.currentUses cn)) as [Hu' | Hu'];
      try lia; reflexivity. }
  intros validateStatic parseFloat code a db db' cn Hstatic Hne Hamount.
  unfold ControlNumberController.validateControlNumber. run_handler.
  rewrite Hstatic. cbn [JS.truthy ControlNumberController.withDefault].
  destruct (String.eqb_spec a "") as [E | _]; [contradiction |].
  cbn [negb andb].
  destruct (parseFloat a) as [n |]; [| reflexivity].
  destruct (Z.eqb_spec n (ControlNumber.amount cn)) as [E | _];
    [| reflexivity].
  exfalso. apply Hamount. rewrite E. reflexivity.
Qed.

Lemma validate_is_read_only_with_three_messages_witness :
  let code := ControlNumber.controlNumber Fixtures.usedCode in
  code <> ""
  /\ (forall d, In d (controlNumbers Fixtures.registry) ->
                ControlNumber.controlNumber d = JS.toUpperCase code ->
                ControlNumber.status d <> "active")
  /\ ControlNumberService.validateControlNumber Fixtures.t0 code
       Fixtures.registry
     = (inr (ControlNumberService.Invalid "Control number not found or expired"),
        Fixtures.registry).
Proof.
  intros code.
  assert (Hne : code <> "") by (vm_compute; discriminate).
  assert (Hinactive :
            forall d, In d (controlNumbers Fixtures.registry) ->
                      ControlNumber.controlNumber d = JS.toUpperCase code ->
                      ControlNumber.status d <> "active").
  { intros d [Hd | [Hd | [Hd | []]]] Hcode; subst d;
      vm_compute in Hcode; try discriminate Hcode.
    vm_compute. discriminate. }
  split; [exact Hne |]. split; [exact Hinactive |].
  destruct validate_is_read_only_with_three_messages as [Hro [Hmissing _]].
  specialize (Hro Fixtures.t0 code Fixtures.registry).
  specialize (Hmissing Fixtures.t0 code Fixtures.registry Hne Hinactive).
  destruct (ControlNumberService.validateControlNumber Fixtures.t0 code
              Fixtures.registry) as [r db'].
  cbn [fst snd] in Hro, Hmissing. rewrite Hro, Hmissing. reflexivity.
Defined.

(* ================================================================= *)
(** ** The case of the code *)

Lemma markAsUsed_reference (now : Z) (r : option string)
      (u : ControlNumber.UsedBy) (cn : ControlNumber.t) :
  ControlNumber.markAsUsed now r u cn
  = match ControlNumber.markAsUsed now None u cn with
    | inl e => inl e
    | inr c => inr (ControlNumber.set_paymentReference r c)
    end.
Proof.
  destruct cn as [id code pre am cur st ref ua ub ea vu reu mx cu].
  unfold ControlNumber.markAsUsed.
  cbn [ControlNumber.status].
  destruct (negb (st =? "active")%string); [reflexivity |].
  cbn [ControlNumber.isReusable ControlNumber.maxUses ControlNumber.currentUses
       ControlNumber.set_status ControlNumber.set_usedAt
       ControlNumber.set_paymentReference ControlNumber.set_currentUses
       ControlNumber.set_usedBy ControlNumber._id ControlNumber.controlNumber
       ControlNumber.prefix ControlNumber.amount ControlNumber.currency
       ControlNumber.status ControlNumber.paymentReference ControlNumber.usedAt
       ControlNumber.usedBy ControlNumber.expiresAt ControlNumber.validUntil].
  destruct (negb reu || (mx <=? cu + 1)); reflexivity.
Qed.

Lemma useControlNumber_eq (now : Z) (s : string)
      (pd : ControlNumberService.PaymentData) (db : DB) :
  ControlNumberService.useControlNumber now s pd db
  = match find (ControlNumberService.activeQuery s) (controlNumbers db) with
    | None =>
        (inl (Prefixed "Failed to use control number: "
                       (Err "Control number not found or not active")), db)
    | Some cn =>
        if negb (ControlNumber.canBeUsed now cn) then
          (inl (Prefixed "Failed to use control number: "
                         (Err "Control number cannot be used")), db)
        else
          match ControlNumber.markAsUsed now
                  (Some (ControlNumberService.makePaymentReference s now))
                  (ControlNumber.mkUsedBy
                     (ControlNumberService.customerName pd)
                     (ControlNumberService.phoneNumber pd)
                     (ControlNumberService.network pd)) cn with
          | inl e => (inl (Prefixed "Failed to use control number: " e), db)
          | inr cn' =>
              match ControlNumber.validate cn' with
              | Some e =>
                  (inl (Prefixed "Failed to use control number: " e), db)
              | None =>
                  (inr (ControlNumberService.mkUsageResult
                          (ControlNumber.controlNumber cn')
                          (ControlNumberService.makePaymentReference s now)
                          (ControlNumber.amount cn')
                          (ControlNumber.currency cn') "used"),
                   mkDB (replaceById ControlNumber._id cn' (controlNumbers db))
                        (payments db) (services db))
              end
          end
    end.
Proof.
  unfold ControlNumberService.useControlNumber. run_handler.
  destruct (find (ControlNumberService.activeQuery s) (controlNumbers db))
    as [cn |]; [| reflexivity].
  destruct (negb (ControlNumber.canBeUsed now cn)); [reflexivity |].
  destruct (ControlNumber.markAsUsed now _ _ cn) as [e | cn']; [reflexivity |].
  destruct (ControlNumber.validate cn'); reflexivity.
Qed.

Lemma validate_set_paymentReference (r : option string) (c : ControlNumber.t) :
  ControlNumber.validate (ControlNumber.set_paymentReference r c)
  = if negb (inEnum ControlNumber.statusEnum (ControlNumber.status c)) then
      Some (EnumError "ControlNumber" "status" (ControlNumber.status c))
    else
      match r with
      | Some x =>
          if castObjectId x then None
          else Some (CastError "ControlNumber" "paymentReference" x)
      | None => None
      end.
Proof. destruct c; reflexivity. Qed.

Lemma castObjectId_reference (s : string) (now : Z) :
  castObjectId (ControlNumberService.makePaymentReference s now)
  = Nat.eqb (String.length (ControlNumberService.makePaymentReference s now)) 12.
Proof.
  unfold castObjectId, ControlNumberService.makePaymentReference.
  cbn [String.append JS.allHex].
  change (JS.isHexDigit "N") with false.
  rewrite andb_false_l, !andb_false_r, orb_false_r.
  reflexivity.
Qed.

Lemma castObjectId_reference_upper (s : string) (now : Z) :
  castObjectId (ControlNumberService.makePaymentReference (JS.toUpperCase s) now)
  = castObjectId (ControlNumberService.makePaymentReference s now).
Proof.
  rewrite !castObjectId_reference.
  unfold ControlNumberService.makePaymentReference.
  rewrite !append_length, toUpperCase_length. reflexivity.
Qed.

(** C10 (as stated): validation and use behave alike on a code and on its
    upper-case form.  Use does not: for the single-use code of the examples
    typed in lower case the result differs from the one for the code typed
    in upper case. *)
Lemma use_depends_on_the_case : ~ Claims.case_insensitive.
Proof.
  intros Hclaim.
  destruct (Hclaim Fixtures.t0 "zeno25600000k3qz" Fixtures.noPaymentData
                   Fixtures.registry) as [_ Huse].
  assert (Hdiff :
            ControlNumberService.useControlNumber Fixtures.t0
              "zeno25600000k3qz" Fixtures.noPaymentData Fixtures.registry
            <> ControlNumberService.useControlNumber Fixtures.t0
                 (JS.toUpperCase "zeno25600000k3qz") Fixtures.noPaymentData
                 Fixtures.registry).
  { vm_compute. intros Heq. inversion Heq. }
  exact (Hdiff Huse).
Qed.

(** C10 (amended): [validateControlNumber] behaves identically on a code
    and on its upper-case form; [useControlNumber] looks up the same record
    and succeeds or fails alike, but the payment reference it builds,
    [CN_<code>_<time>], carries the code as it was typed: the two results,
    and the two registries, are equal once the payment reference is
    forgotten. *)
Theorem lookup_ignores_case_up_to_reference :
  forall (now : Z) (s : string) (paymentData : ControlNumberService.PaymentData)
         (db : DB),
    ControlNumberService.validateControlNumber now s db
    = ControlNumberService.validateControlNumber now (JS.toUpperCase s) db
    /\ Claims.forgetReference
         (ControlNumberService.useControlNumber now s paymentData db)
       = Claims.forgetReference
           (ControlNumberService.useControlNumber now (JS.toUpperCase s)
              paymentData db).
Proof.
  intros now s pd db. split.
  - rewrite !validateControlNumber_eq.
    rewrite toUpperCase_empty, find_active_upper. reflexivity.
  - rewrite !useControlNumber_eq, find_active_upper.
    destruct (find (ControlNumberService.activeQuery s) (controlNumbers db))
      as [cn |]; [| reflexivity].
    destruct (negb (ControlNumber.canBeUsed now cn)); [reflexivity |].
    rewrite (markAsUsed_reference now
               (Some (ControlNumberService.makePaymentReference s now))).
    rewrite (markAsUsed_reference now
               (Some (ControlNumberService.makePaymentReference
                        (JS.toUpperCase s) now))).
    destruct (ControlNumber.markAsUsed now None _ cn) as [e | c];
      [reflexivity |].
    rewrite !validate_set_paymentReference.
    destruct (negb (inEnum ControlNumber.statusEnum (ControlNumber.status c)));
      [reflexivity |].
    rewrite castObjectId_reference_upper.
    destruct (castObjectId (ControlNumberService.makePaymentReference s now));
      [| reflexivity].
    unfold Claims.forgetReference. cbn [fst snd controlNumbers payments services].
    f_equal. f_equal.
    rewrite !map_replaceById. apply map_ext. intros x. reflexivity.
Qed.

(* ================================================================= *)
(** ** Redemption through the controller, one request after another and
       interleaved *)



(** The two awaited operations of a request, served in a row, are the
    handler. *)
Lemma steps_in_a_row (now : Z) (c : string)
      (body : ControlNumberController.UseBody) (db : DB) :
  let (r1, db1) := Concurrent.step (Concurrent.Reading now c body) db in
  let (r2, db2) := Concurrent.step r1 db1 in
  let (response, db') :=
    Concurrent.respond (ControlNumberController.useControlNumber now c body) db in
  r2 = Concurrent.Finished response /\ db2 = db'.
Proof.
  unfold Concurrent.step, Concurrent.respond,
    ControlNumberController.useControlNumber,
    ControlNumberController.useControlNumber_find,
    ControlNumberController.onError.
  run_handler.
  destruct (ControlNumberController.useControlNumber_finish now body
              (find _ (controlNumbers db)) db) as [[e | r] db'];
    split; reflexivity.
Qed.

Lemma NoDup_map_inj {A B : Type} (f : A -> B) (l : list A) (a b : A) :
  NoDup (map f l) -> In a l -> In b l -> f a = f b -> a = b.
Proof.
  induction l as [| x l IH]; intros Hnd Ha Hb Hf; [contradiction |].
  cbn [map] in Hnd. inversion Hnd as [| y l' Hx Hl]; subst.
  destruct Ha as [Ha | Ha]; destruct Hb as [Hb | Hb].
  - congruence.
  - exfalso. apply Hx. subst a. rewrite Hf. apply in_map. exact Hb.
  - exfalso. apply Hx. subst b. rewrite <- Hf. apply in_map. exact Ha.
  - exact (IH Hl Ha Hb Hf).
Qed.


Lemma canBeUsed_active (now : Z) (cn : ControlNumber.t) :
  ControlNumber.canBeUsed now cn = true -> ControlNumber.status cn = "active".
Proof.
  unfold ControlNumber.canBeUsed, ControlNumber.isValid.
  intros H. apply andb_true_iff in H. destruct H as [H _].
  apply andb_true_iff in H. destruct H as [H _].
  apply andb_true_iff in H. destruct H as [H _].
  apply String.eqb_eq. exact H.
Qed.





(* ================================================================= *)
(** ** Delivery of services on completion *)


Lemma Forall2_map_l {A B C : Type} (R : B -> C -> Prop) (g : A -> B)
      (l : list A) (l' : list C) :
  Forall2 R (map g l) l' -> Forall2 (fun x x' => R (g x) x') l l'.
Proof.
  revert l'. induction l as [| a l IH]; intros l' H; inversion H; subst.
  - constructor.
  - constructor; [assumption | apply IH; assumption].
Qed.

Lemma Forall2_impl_in {A B : Type} (R R' : A -> B -> Prop)
      (l : list A) (l' : list B) :
  (forall x x', In x l -> R x x' -> R' x x') ->
  Forall2 R l l' -> Forall2 R' l l'.
Proof.
  intros Himpl H. induction H as [| a b l l' Hab Hrest IH].
  - constructor.
  - constructor.
    + apply Himpl; [left; reflexivity | exact Hab].
    + apply IH. intros x x' Hx. apply Himpl. right. exact Hx.
Qed.

Lemma Forall2_same {A : Type} (R : A -> A -> Prop) (l : list A) :
  (forall x, R x x) -> Forall2 R l l.
Proof.
  intros Hrefl. induction l; constructor; auto.
Qed.



(* ================================================================= *)
(** ** Completion delivered twice *)

Lemma validateHistory_app (a b : list Payment.HistoryEntry) :
  Payment.validateHistory (a ++ b)
  = match Payment.validateHistory a with
    | Some e => Some e
    | None => Payment.validateHistory b
    end.
Proof.
  induction a as [| h a IH]; [reflexivity |].
  cbn [app Payment.validateHistory].
  destruct (Payment.validateEntry h); [reflexivity | exact IH].
Qed.









(* ================================================================= *)
(** ** Further properties of control numbers *)

(** What a successful [markAsUsed] tells about its argument and result. *)
Lemma markAsUsed_result (now : Z) (paymentRef : option string)
      (usedByInfo : ControlNumber.UsedBy) (cn cn' : ControlNumber.t) :
  ControlNumber.markAsUsed now paymentRef usedByInfo cn = inr cn' ->
  ControlNumber.status cn = "active"
  /\ ControlNumber.status cn' = "used"
  /\ ControlNumber.currentUses cn' = ControlNumber.currentUses cn + 1
  /\ ControlNumber.maxUses cn' = ControlNumber.maxUses cn
  /\ ControlNumber._id cn' = ControlNumber._id cn
  /\ ControlNumber.controlNumber cn' = ControlNumber.controlNumber cn.
Proof.
  intros Hmark.
  destruct (String.eqb_spec (ControlNumber.status cn) "active") as [Hact | Hne].
  - destruct (markAsUsed_active now paymentRef usedByInfo cn Hact)
      as [c [Hc [Hst [Huses [_ [_ [Hid Hcode]]]]]]].
    rewrite Hc in Hmark. inversion Hmark. subst c.
    split; [exact Hact |]. split; [exact Hst |]. split; [exact Huses |].
    split; [| split; assumption].
    revert Hc. unfold ControlNumber.markAsUsed.
    rewrite Hact, String.eqb_refl. cbn [negb].
    match goal with
    | |- context [if ?b then _ else _] => destruct b
    end; intros Hc; inversion Hc; reflexivity.
  - rewrite (markAsUsed_inactive now paymentRef usedByInfo cn Hne) in Hmark.
    discriminate Hmark.
Qed.

(** X1: a redemption is final on the document: on the result of a successful
    [markAsUsed] every further [markAsUsed] throws "Control number is not
    active", and the result can be used at no time. *)
Theorem markAsUsed_is_final :
  forall (now : Z) (paymentRef : option string)
         (usedByInfo : ControlNumber.UsedBy) (cn cn' : ControlNumber.t),
    ControlNumber.markAsUsed now paymentRef usedByInfo cn = inr cn' ->
    (forall now' paymentRef' usedByInfo',
        ControlNumber.markAsUsed now' paymentRef' usedByInfo' cn'
        = inl (Err "Control number is not active"))
    /\ (forall now', ControlNumber.canBeUsed now' cn' = false).
Proof.
  intros now paymentRef usedByInfo cn cn' Hmark.
  destruct (markAsUsed_result _ _ _ _ _ Hmark) as [_ [Hused _]].
  split.
  - intros now' paymentRef' usedByInfo'. apply markAsUsed_inactive.
    rewrite Hused. discriminate.
  - intros now'. unfold ControlNumber.canBeUsed, ControlNumber.isValid.
    rewrite Hused. reflexivity.
Qed.

Lemma markAsUsed_is_final_witness :
  exists cn',
    ControlNumber.markAsUsed Fixtures.t0 None ControlNumber.noUsedBy
                             Fixtures.singleUseCode = inr cn'
    /\ ControlNumber.markAsUsed (Fixtures.t0 + 1) None ControlNumber.noUsedBy cn'
       = inl (Err "Control number is not active")
    /\ ControlNumber.canBeUsed (Fixtures.t0 + 1) cn' = false.
Proof.
  destruct (markAsUsed_active Fixtures.t0 None ControlNumber.noUsedBy
              Fixtures.singleUseCode eq_refl) as [cn' [Hmark _]].
  exists cn'. split; [exact Hmark |].
  destruct (markAsUsed_is_final Fixtures.t0 None ControlNumber.noUsedBy
              Fixtures.singleUseCode cn' Hmark) as [Hagain Hnever].
  split; [apply Hagain | apply Hnever].
Defined.

(** X2: a control number can be used exactly while it is active, has a use
    left, and the time is past neither [validUntil] nor [expiresAt]; hence a
    code that can be used at some time can be used at every earlier time,
    and one that cannot be used stays so as time passes. *)
Theorem canBeUsed_until_the_earlier_date :
  forall (now : Z) (cn : ControlNumber.t),
    (ControlNumber.canBeUsed now cn = true
     <-> ControlNumber.status cn = "active"
         /\ ControlNumber.currentUses cn < ControlNumber.maxUses cn
         /\ now <= Z.min (ControlNumber.validUntil cn)
                         (ControlNumber.expiresAt cn))
    /\ (forall earlier,
           earlier <= now ->
           ControlNumber.canBeUsed now cn = true ->
           ControlNumber.canBeUsed earlier cn = true).
Proof.
  intros now cn.
  assert (Hiff : forall t,
             ControlNumber.canBeUsed t cn = true
             <-> ControlNumber.status cn = "active"
                 /\ ControlNumber.currentUses cn < ControlNumber.maxUses cn
                 /\ t <= Z.min (ControlNumber.validUntil cn)
                               (ControlNumber.expiresAt cn)).
  { intros t. unfold ControlNumber.canBeUsed, ControlNumber.isValid,
      ControlNumber.isExpired.
    rewrite !andb_true_iff, negb_true_iff, String.eqb_eq, Z.leb_le,
      Z.ltb_lt, Z.ltb_ge.
    split.
    - intros [[[Hs Hv] Hu] He]. split; [exact Hs |]. split; [exact Hu | lia].
    - intros [Hs [Hu Ht]]. repeat split; try assumption; lia. }
  split; [apply Hiff |].
  intros earlier Hle Hnow. apply Hiff. apply Hiff in Hnow.
  destruct Hnow as [Hs [Hu Ht]]. split; [exact Hs |]. split; [exact Hu | lia].
Qed.

Lemma canBeUsed_until_the_earlier_date_witness :
  Fixtures.t0 <= Fixtures.t0 + Fixtures.day
  /\ ControlNumber.canBeUsed (Fixtures.t0 + Fixtures.day) Fixtures.singleUseCode
     = true
  /\ ControlNumber.canBeUsed Fixtures.t0 Fixtures.singleUseCode = true.
Proof.
  assert (Hle : Fixtures.t0 <= Fixtures.t0 + Fixtures.day)
    by (vm_compute; discriminate).
  assert (Hlater : ControlNumber.canBeUsed (Fixtures.t0 + Fixtures.day)
                     Fixtures.singleUseCode = true)
    by (vm_compute; reflexivity).
  split; [exact Hle |]. split; [exact Hlater |].
  exact (proj2 (canBeUsed_until_the_earlier_date (Fixtures.t0 + Fixtures.day)
                  Fixtures.singleUseCode) Fixtures.t0 Hle Hlater).
Defined.

(* ================================================================= *)
(** ** What no interleaving of redemptions can do *)

(** What the database can be after the second operation of a request. *)
Lemma finish_writes (now : Z) (body : ControlNumberController.UseBody)
      (found : option ControlNumber.t) (db : DB) :
  snd (Concurrent.respond
         (ControlNumberController.useControlNumber_finish now body found) db)
  = db
  \/ exists cn cn',
      found = Some cn
      /\ ControlNumber.canBeUsed now cn = true
      /\ ControlNumber.markAsUsed now
           (ControlNumberController.b_paymentReference body)
           (ControlNumberController.withDefault ControlNumber.noUsedBy
              (ControlNumberController.b_customerInfo body)) cn = inr cn'
      /\ snd (Concurrent.respond
                (ControlNumberController.useControlNumber_finish now body found)
                db)
         = mkDB (replaceById ControlNumber._id cn' (controlNumbers db))
                (payments db) (services db).
Proof.
  unfold Concurrent.respond, ControlNumberController.useControlNumber_finish,
    ControlNumberController.onError.
  run_handler.
  destruct found as [cn |]; [| left; reflexivity].
  destruct (ControlNumber.canBeUsed now cn) eqn:Husable; cbn [negb];
    [| left; reflexivity].
  destruct (ControlNumber.markAsUsed now _ _ cn) as [e | cn'] eqn:Hmark;
    [left; reflexivity |].
  destruct (ControlNumber.validate cn'); [left; reflexivity |].
  right. exists cn, cn'. repeat split; assumption.
Qed.

Lemma preserved_refl (db : DB) : preserved db db.
Proof. repeat split; auto. Qed.

Lemma preserved_trans (a b c : DB) :
  preserved a b -> preserved b c -> preserved a c.
Proof.
  intros [H1 [H2 [H3 [H4 H5]]]] [K1 [K2 [K3 [K4 K5]]]].
  split; [auto |]. split; [auto |].
  split; [congruence |]. split; congruence.
Qed.

Lemma step_preserves (r : Concurrent.Request) (db : DB) :
  preserved db (snd (Concurrent.step r db)).
Proof.
  destruct r as [now c body | now body found | response];
    [apply preserved_refl | | apply preserved_refl].
  unfold Concurrent.step.
  destruct (finish_writes now body found db)
    as [Hsame | [cn [cn' [_ [Husable [Hmark Hdb]]]]]];
    destruct (Concurrent.respond _ db) as [response db']; cbn [snd] in *.
  - rewrite Hsame. apply preserved_refl.
  - rewrite Hdb. clear Hdb.
    destruct (markAsUsed_result _ _ _ _ _ Hmark)
      as [_ [Hused [Huses [Hmax [Hid _]]]]].
    split; [| split; [| split; [| split; reflexivity]]].
    + unfold usesWithinLimit. cbn [controlNumbers]. rewrite !Forall_forall.
      intros Hall d Hd. apply In_replaceById in Hd.
      destruct Hd as [Hd | [Hd _]]; [| exact (Hall d Hd)].
      subst d. rewrite Huses, Hmax.
      unfold ControlNumber.canBeUsed, ControlNumber.isValid in Husable.
      apply andb_true_iff in Husable. destruct Husable as [Hv _].
      apply andb_true_iff in Hv. destruct Hv as [_ Hu].
      apply Z.ltb_lt in Hu. lia.
    + cbn [controlNumbers]. intros d Hd Hact. apply In_replaceById in Hd.
      destruct Hd as [Hd | [Hd _]]; [| exact Hd].
      subst d. rewrite Hused in Hact. discriminate Hact.
    + cbn [controlNumbers]. apply ids_replaceById.
Qed.

Lemma stepAt_preserves (i : nat) :
  forall (rs : list Concurrent.Request) (db : DB),
    preserved db (snd (Concurrent.stepAt i rs db)).
Proof.
  induction i as [| j IH]; intros [| r rest] db; cbn [Concurrent.stepAt snd];
    try apply preserved_refl.
  - pose proof (step_preserves r db) as H.
    destruct (Concurrent.step r db) as [r' db']. exact H.
  - pose proof (IH rest db) as H.
    destruct (Concurrent.stepAt j rest db) as [rest' db']. exact H.
Qed.

Lemma run_preserves (schedule : list nat) :
  forall (rs : list Concurrent.Request) (db : DB),
    preserved db (snd (Concurrent.run schedule rs db)).
Proof.
  induction schedule as [| i rest IH]; intros rs db; cbn [Concurrent.run].
  - apply preserved_refl.
  - pose proof (stepAt_preserves i rs db) as H.
    destruct (Concurrent.stepAt i rs db) as [rs' db']. cbn [snd] in H.
    exact (preserved_trans _ _ _ H (IH rs' db')).
Qed.

(** X3: whatever the requests and whatever the order in which their reads
    and writes are served, redemption through the controller keeps every
    use counter within its limit, activates no control number (a document
    that is active afterwards was stored, and the same, before), neither
    inserts nor removes a document, and touches neither payments nor
    services. *)
Theorem interleaving_keeps_uses_within_limit :
  forall (schedule : list nat) (requests : list Concurrent.Request) (db : DB),
    usesWithinLimit db ->
    let db' := snd (Concurrent.run schedule requests db) in
    usesWithinLimit db'
    /\ (forall d, In d (controlNumbers db') ->
                  ControlNumber.status d = "active" ->
                  In d (controlNumbers db))
    /\ map ControlNumber._id (controlNumbers db')
       = map ControlNumber._id (controlNumbers db)
    /\ payments db' = payments db
    /\ services db' = services db.
Proof.
  intros schedule requests db Hlimit.
  destruct (run_preserves schedule requests db) as [H1 [H2 [H3 [H4 H5]]]].
  cbv zeta. split; [exact (H1 Hlimit) |]. repeat split; assumption.
Qed.

Lemma interleaving_keeps_uses_within_limit_witness :
  let db' :=
    snd (Concurrent.run [0; 1; 0; 1]%nat
           [Concurrent.Reading Fixtures.t0
              (ControlNumber.controlNumber Fixtures.singleUseCode)
              Fixtures.plainBody;
            Concurrent.Reading (Fixtures.t0 + 1)
              (ControlNumber.controlNumber Fixtures.singleUseCode)
              Fixtures.plainBody]
           Fixtures.registry) in
  usesWithinLimit Fixtures.registry
  /\ usesWithinLimit db'.
Proof.
  assert (Hlimit : usesWithinLimit Fixtures.registry).
  { unfold usesWithinLimit. vm_compute.
    repeat constructor; discriminate. }
  split; [exact Hlimit |].
  exact (proj1 (interleaving_keeps_uses_within_limit [0; 1; 0; 1]%nat _
                  Fixtures.registry Hlimit)).
Defined.

(* ================================================================= *)
(** ** Cancellation and extension of a control number *)


Lemma updateFirst_none (q : ControlNumber.t -> bool)
      (f : ControlNumber.t -> ControlNumber.t) (l : list ControlNumber.t) :
  find q l = None -> ControlNumberModel.updateFirst q f l = (None, l).
Proof.
  induction l as [| d l IH]; intros Hfind; [reflexivity |].
  cbn [find] in Hfind. cbn [ControlNumberModel.updateFirst].
  destruct (q d); [discriminate Hfind |].
  rewrite (IH Hfind). reflexivity.
Qed.

(** The update changes the first match, where it stands, and nothing else. *)
Lemma updateFirst_some (q : ControlNumber.t -> bool)
      (f : ControlNumber.t -> ControlNumber.t) (l : list ControlNumber.t)
      (a : ControlNumber.t) :
  find q l = Some a ->
  exists l1 l2,
    l = (l1 ++ a :: l2)%list
    /\ ControlNumberModel.updateFirst q f l = (Some (f a), (l1 ++ f a :: l2)%list).
Proof.
  induction l as [| d l IH]; intros Hfind; [discriminate Hfind |].
  cbn [find] in Hfind. cbn [ControlNumberModel.updateFirst].
  destruct (q d).
  - inversion Hfind. subst d. exists [], l. split; reflexivity.
  - destruct (IH Hfind) as [l1 [l2 [Hl Hupd]]].
    exists (d :: l1), l2. rewrite Hupd. split; [| reflexivity].
    cbn [app]. rewrite <- Hl. reflexivity.
Qed.

Lemma no_active_after_cancel (s : string) (l1 l2 : list ControlNumber.t)
      (a : ControlNumber.t) :
  NoDup (map ControlNumber.controlNumber (l1 ++ a :: l2)) ->
  ControlNumberService.activeQuery s a = true ->
  find (ControlNumberService.activeQuery s)
       (l1 ++ ControlNumber.set_status "cancelled" a :: l2) = None.
Proof.
  intros Hnd Hq. apply find_none_iff. intros d Hd.
  unfold ControlNumberService.activeQuery in Hq |- *.
  apply andb_true_iff in Hq. destruct Hq as [Hcode _].
  apply String.eqb_eq in Hcode.
  rewrite map_app in Hnd. cbn [map] in Hnd.
  apply NoDup_remove_2 in Hnd.
  apply in_app_or in Hd. cbn [In] in Hd.
  destruct (String.eqb_spec (ControlNumber.controlNumber d)
                            (JS.toUpperCase s)) as [Hd_code | _];
    [| reflexivity].
  destruct Hd as [Hd | [Hd | Hd]].
  - exfalso. apply Hnd. apply in_or_app. left.
    rewrite Hcode, <- Hd_code. apply in_map. exact Hd.
  - subst d. reflexivity.
  - exfalso. apply Hnd. apply in_or_app. right.
    rewrite Hcode, <- Hd_code. apply in_map. exact Hd.
Qed.

(** X4: cancellation.  Without an active record under the upper-cased code
    [cancelControlNumber] throws and stores nothing.  With one, and codes
    being unique, it marks that record cancelled in place and leaves every
    other record, the payments and the services as they were; afterwards
    the code validates as invalid at every time, cannot be used, and cannot
    be cancelled again. *)
Theorem cancel_retires_the_code :
  forall (s : string) (db : DB),
    (find (ControlNumberService.activeQuery s) (controlNumbers db) = None ->
     ControlNumberService.cancelControlNumber s db
     = (inl (Prefixed "Failed to cancel control number: "
                      (Err "Control number not found or not active")), db))
    /\ (forall cn,
           uniqueCodes db ->
           find (ControlNumberService.activeQuery s) (controlNumbers db)
           = Some cn ->
           exists l1 l2,
             controlNumbers db = (l1 ++ cn :: l2)%list
             /\ let db' :=
                  mkDB (l1 ++ ControlNumber.set_status "cancelled" cn :: l2)
                       (payments db) (services db) in
                ControlNumberService.cancelControlNumber s db
                = (inr (ControlNumberService.mkCancellation
                          (ControlNumber.controlNumber cn) "cancelled"), db')
                /\ (forall now,
                       ControlNumberService.isValid
                         (match fst (ControlNumberService.validateControlNumber
                                       now s db') with
                          | inr r => r
                          | inl e => ControlNumberService.Invalid (message e)
                          end) = false)
                /\ (forall now paymentData,
                       ControlNumberService.useControlNumber now s paymentData db'
                       = (inl (Prefixed "Failed to use control number: "
                                 (Err "Control number not found or not active")),
                          db'))
                /\ ControlNumberService.cancelControlNumber s db'
                   = (inl (Prefixed "Failed to cancel control number: "
                             (Err "Control number not found or not active")),
                      db')).
Proof.
  intros s db. split.
  - intros Hnone. unfold ControlNumberService.cancelControlNumber.
    unfold try_catch, bind, throw, ControlNumberModel.findOneAndUpdate.
    rewrite (updateFirst_none _ _ _ Hnone). destruct db; reflexivity.
  - intros cn Hunique Hfind.
    destruct (updateFirst_some _ (ControlNumber.set_status "cancelled") _ _ Hfind)
      as [l1 [l2 [Hl Hupd]]].
    exists l1, l2. split; [exact Hl |]. cbv zeta.
    pose proof (find_some _ _ Hfind) as [_ Hq].
    assert (Hnone :
              find (ControlNumberService.activeQuery s)
                   (l1 ++ ControlNumber.set_status "cancelled" cn :: l2) = None).
    { apply no_active_after_cancel; [| exact Hq].
      unfold uniqueCodes in Hunique. rewrite Hl in Hunique. exact Hunique. }
    split; [| split; [| split]].
    + unfold ControlNumberService.cancelControlNumber.
      unfold try_catch, bind, ret, ControlNumberModel.findOneAndUpdate.
      rewrite Hupd. reflexivity.
    + intros now. rewrite validateControlNumber_eq. cbn [fst controlNumbers].
      rewrite Hnone. destruct (s =? "")%string; reflexivity.
    + intros now paymentData. rewrite useControlNumber_eq.
      cbn [controlNumbers]. rewrite Hnone. reflexivity.
    + unfold ControlNumberService.cancelControlNumber.
      unfold try_catch, bind, throw, ControlNumberModel.findOneAndUpdate.
      cbn [controlNumbers]. rewrite (updateFirst_none _ _ _ Hnone). reflexivity.
Qed.

Lemma cancel_retires_the_code_witness :
  exists db',
    ControlNumberService.cancelControlNumber "zeno25600000k3qz" Fixtures.registry
    = (inr (ControlNumberService.mkCancellation "ZENO25600000K3QZ" "cancelled"),
       db')
    /\ ControlNumberService.cancelControlNumber "zeno25600000k3qz" db'
       = (inl (Prefixed "Failed to cancel control number: "
                 (Err "Control number not found or not active")), db').
Proof.
  assert (Hunique : uniqueCodes Fixtures.registry).
  { unfold uniqueCodes. vm_compute.
    repeat constructor; cbn; intuition discriminate. }
  assert (Hfind : find (ControlNumberService.activeQuery "zeno25600000k3qz")
                       (controlNumbers Fixtures.registry)
                  = Some Fixtures.singleUseCode)
    by (vm_compute; reflexivity).
  destruct (proj2 (cancel_retires_the_code "zeno25600000k3qz" Fixtures.registry)
                  Fixtures.singleUseCode Hunique Hfind)
    as [l1 [l2 [_ [Hcancel [_ [_ Hagain]]]]]].
  eexists. split; [exact Hcancel | exact Hagain].
Defined.




(* ================================================================= *)
(** ** The expiry sweep of services *)

Lemma Forall2_map_r_in {A B : Type} (R : A -> B -> Prop) (g : A -> B)
      (l : list A) :
  (forall x, In x l -> R x (g x)) -> Forall2 R l (map g l).
Proof.
  induction l as [| a l IH]; intros H; cbn [map]; constructor.
  - apply H. left. reflexivity.
  - apply IH. intros x Hx. apply H. right. exact Hx.
Qed.

Lemma Forall2_Forall_r {A B : Type} (R : A -> B -> Prop) (P : B -> Prop)
      (l : list A) (l' : list B) :
  (forall x x', R x x' -> P x') -> Forall2 R l l' -> Forall P l'.
Proof.
  intros Himpl H. induction H; constructor; eauto.
Qed.

Lemma validate_expired (s : Service.t) :
  Service.validate s = None ->
  Service.validate (Service.set_status "expired" s) = None.
Proof.
  destruct s as [id sid pid st dur tok ag ea la ac da att lda ds de ua].
  unfold Service.validate.
  cbn [Service.status Service.deliveryStatus Service.set_status].
  destruct (negb (inEnum Service.statusEnum st)); [discriminate |].
  change (negb (inEnum Service.statusEnum "expired")) with false.
  cbv iota. intros H. exact H.
Qed.

Lemma markExpired_stores (now : Z) :
  forall (l : list Service.t) (db : DB),
    (forall s, In s l -> Service.validate s = None) ->
    exists svcs,
      ServiceController.markExpired now l db
      = (inr tt, mkDB (controlNumbers db) (payments db) svcs)
      /\ Forall2 (sweptFrom now l) (services db) svcs.
Proof.
  induction l as [| s rest IH]; intros db Hvalid.
  - exists (services db). split; [destruct db; reflexivity |].
    apply Forall2_same. intros x. left. split; [intros [] | reflexivity].
  - cbn [ServiceController.markExpired]. unfold bind, ServiceModel.save.
    rewrite (validate_expired s (Hvalid s (or_introl eq_refl))).
    set (s' := Service.preSave now (Service.set_status "expired" s)).
    destruct (IH (mkDB (controlNumbers db) (payments db)
                       (replaceById Service._id s' (services db))))
      as [svcs [Hrest Hrel]].
    { intros x Hx. apply Hvalid. right. exact Hx. }
    exists svcs. split; [exact Hrest |].
    cbn [services] in Hrel. unfold replaceById in Hrel.
    apply Forall2_map_l in Hrel.
    revert Hrel. apply Forall2_impl_in. intros x x' _ Hcases.
    assert (Hid : Service._id s' = Service._id s) by reflexivity.
    destruct (Nat.eqb_spec (Service._id x) (Service._id s')) as [Heq | Hneq].
    + right. destruct Hcases as [[_ Hx'] | [s2 [Hin2 [Hid2 Hx']]]].
      * exists s. split; [left; reflexivity |]. split; [congruence | exact Hx'].
      * exists s2. split; [right; exact Hin2 |]. split; [congruence | exact Hx'].
    + destruct Hcases as [[Hnot Hx'] | [s2 [Hin2 [Hid2 Hx']]]].
      * left. split; [| exact Hx'].
        cbn [map]. intros [Hs | Hr]; [| exact (Hnot Hr)].
        apply Hneq. congruence.
      * right. exists s2. split; [right; exact Hin2 |]. split; assumption.
Qed.

Lemma swept_not_expired (now : Z) (x x' : Service.t) :
  swept now x x' -> Service.expiredQuery now x' = false.
Proof.
  unfold swept. destruct (Service.expiredQuery now x) eqn:Hq; intros Hx'.
  - subst x'. destruct x; reflexivity.
  - subst x'. exact Hq.
Qed.

Lemma not_expired_accessible (now : Z) (s : Service.t) :
  Service.expiredQuery now s = false ->
  Service.status s = "active" ->
  Service.isAccessible now s = true.
Proof.
  unfold Service.expiredQuery, Service.isAccessible. intros Hq Hact.
  rewrite Hact in *. rewrite String.eqb_refl in *. cbn [negb andb] in *.
  destruct (Service.expiresAt s) as [e |]; [| reflexivity].
  rewrite Hq. reflexivity.
Qed.

(** X6: the expiry sweep.  On services that satisfy their schema and have
    distinct identifiers, [checkExpiredServices] answers 200 with the number
    of active services whose [expiresAt] is before the time of the sweep,
    stores exactly those as expired and every other service as it was, and
    touches nothing else; afterwards every stored service that is active is
    accessible at that time, and a second sweep at the same time reports
    zero and stores nothing. *)
Theorem sweep_expires_what_is_inaccessible :
  forall (now : Z) (db : DB),
    servicesValid db ->
    NoDup (map Service._id (services db)) ->
    exists svcs,
      let db' := mkDB (controlNumbers db) (payments db) svcs in
      let n := length (filter (Service.expiredQuery now) (services db)) in
      ServiceController.checkExpiredServices now db
      = (inr (mkResponse 200 true
                (JS.showZ (Z.of_nat n) ++ " services marked as expired")
                None (Some n)), db')
      /\ Forall2 (swept now) (services db) svcs
      /\ Forall (fun s => Service.status s = "active" ->
                          Service.isAccessible now s = true) svcs
      /\ ServiceController.checkExpiredServices now db'
         = (inr (mkResponse 200 true "0 services marked as expired"
                            None (Some 0%nat)), db').
Proof.
  intros now db Hvalid Hnd.
  unfold servicesValid in Hvalid. rewrite Forall_forall in Hvalid.
  destruct (markExpired_stores now
              (filter (Service.expiredQuery now) (services db)) db)
    as [svcs [Hrun Hrel]].
  { intros s Hs. apply filter_In in Hs. apply Hvalid. exact (proj1 Hs). }
  assert (Hswept : Forall2 (swept now) (services db) svcs).
  { revert Hrel. apply Forall2_impl_in. intros x x' Hx Hcases.
    unfold swept. destruct (Service.expiredQuery now x) eqn:Hq.
    - destruct Hcases as [[Hnot _] | [s [Hin [Hid Hx']]]].
      + exfalso. apply Hnot. apply in_map. apply filter_In. split; assumption.
      + apply filter_In in Hin. destruct Hin as [Hin _].
        rewrite <- (NoDup_map_inj Service._id _ s x Hnd Hin Hx Hid).
        exact Hx'.
    - destruct Hcases as [[_ Hsame] | [s [Hin [Hid _]]]]; [exact Hsame |].
      exfalso. apply filter_In in Hin. destruct Hin as [Hin Hqs].
      rewrite (NoDup_map_inj Service._id _ s x Hnd Hin Hx Hid) in Hqs.
      rewrite Hq in Hqs. discriminate Hqs. }
  assert (Hnone : filter (Service.expiredQuery now) svcs = []).
  { assert (Hall : Forall (fun x' => Service.expiredQuery now x' = false) svcs)
      by (revert Hswept; apply Forall2_Forall_r; apply swept_not_expired).
    clear - Hall. induction Hall as [| x l Hx _ IH]; [reflexivity |].
    cbn [filter]. rewrite Hx. exact IH. }
  exists svcs. cbv zeta.
  split; [| split; [exact Hswept | split]].
  - unfold ServiceController.checkExpiredServices, ServiceModel.findExpired.
    run_handler. rewrite Hrun. reflexivity.
  - revert Hswept. apply Forall2_Forall_r. intros x x' Hx Hact.
    apply not_expired_accessible; [| exact Hact].
    exact (swept_not_expired now x x' Hx).
  - unfold ServiceController.checkExpiredServices, ServiceModel.findExpired.
    run_handler. cbn [services]. rewrite Hnone. reflexivity.
Qed.

Lemma sweep_expires_what_is_inaccessible_witness :
  exists svcs,
    ServiceController.checkExpiredServices (Fixtures.t0 + 40 * Fixtures.day)
      (snd (WebhookController.handleZenopayWebhook Fixtures.t0 Fixtures.tokens
              (Fixtures.webhook "ORDER-1" "COMPLETED") Fixtures.ledger))
    = (inr (mkResponse 200 true "1 services marked as expired" None
                       (Some 1%nat)),
       mkDB [] (payments
                  (snd (WebhookController.handleZenopayWebhook Fixtures.t0
                          Fixtures.tokens
                          (Fixtures.webhook "ORDER-1" "COMPLETED")
                          Fixtures.ledger))) svcs)
    /\ Forall (fun s => Service.status s = "active" ->
                        Service.isAccessible (Fixtures.t0 + 40 * Fixtures.day) s
                        = true) svcs.
Proof.
  set (db := snd (WebhookController.handleZenopayWebhook Fixtures.t0
                    Fixtures.tokens (Fixtures.webhook "ORDER-1" "COMPLETED")
                    Fixtures.ledger)).
  assert (Hvalid : servicesValid db).
  { unfold servicesValid. vm_compute. repeat constructor. }
  assert (Hnd : NoDup (map Service._id (services db))).
  { vm_compute. repeat constructor; cbn; intuition discriminate. }
  destruct (sweep_expires_what_is_inaccessible (Fixtures.t0 + 40 * Fixtures.day)
              db Hvalid Hnd) as [svcs [Hrun [_ [Hacc _]]]].
  exists svcs. split; [| exact Hacc].
  rewrite Hrun. vm_compute. reflexivity.
Defined.

(* ================================================================= *)
(** ** Delivery, activation and access *)




Lemma activate_with_duration (now d : Z) (s : Service.t) :
  Service.duration s = Some d -> d <> 0 ->
  Service.activate now s
  = Service.set_expiresAt (Some (now + d * 24 * 60 * 60 * 1000))
      (Service.set_deliveryStatus "completed"
         (Service.set_deliveredAt (Some now)
            (Service.set_accessGrantedAt (Some now)
               (Service.set_status "active" s)))).
Proof.
  intros Hd Hne. unfold Service.activate.
  change (Service.duration
            (Service.set_deliveryStatus "completed"
               (Service.set_deliveredAt (Some now)
                  (Service.set_accessGrantedAt (Some now)
                     (Service.set_status "active" s)))))
    with (Service.duration s).
  rewrite Hd. cbn [Service.truthy_duration].
  destruct (Z.eqb_spec d 0) as [E | _]; [contradiction | reflexivity].
Qed.

Lemma activate_without_duration (now : Z) (s : Service.t) :
  Service.duration s = None \/ Service.duration s = Some 0 ->
  Service.activate now s
  = Service.set_deliveryStatus "completed"
      (Service.set_deliveredAt (Some now)
         (Service.set_accessGrantedAt (Some now)
            (Service.set_status "active" s))).
Proof.
  intros Hd. unfold Service.activate.
  change (Service.duration
            (Service.set_deliveryStatus "completed"
               (Service.set_deliveredAt (Some now)
                  (Service.set_accessGrantedAt (Some now)
                     (Service.set_status "active" s)))))
    with (Service.duration s).
  destruct Hd as [Hd | Hd]; rewrite Hd; reflexivity.
Qed.

(** X8: the window that activation opens.  A service activated at [now]
    with a duration of [d] days, [d] not zero, is accessible exactly at the
    times up to [now + d] days, whatever its expiry was before.  A service
    activated without a duration (or with duration zero) keeps its old
    [expiresAt]: it is accessible exactly when it has none or the time is not
    past it, so that re-activating a service whose [expiresAt] has passed
    does not make it accessible. *)
Theorem activation_opens_the_window :
  forall (now t : Z) (s : Service.t),
    (forall d,
        Service.duration s = Some d -> d <> 0 ->
        (Service.isAccessible t (Service.activate now s) = true
         <-> t <= now + d * 24 * 60 * 60 * 1000))
    /\ (Service.duration s = None \/ Service.duration s = Some 0 ->
        (Service.isAccessible t (Service.activate now s) = true
         <-> Service.expiresAt s = None
             \/ exists e, Service.expiresAt s = Some e /\ t <= e)).
Proof.
  intros now t s. split.
  - intros d Hd Hne. rewrite (activate_with_duration now d s Hd Hne).
    rewrite isAccessible_iff.
    destruct s as [id sid pid st dur tok ag ea la ac da att lda ds de ua].
    cbn [Service.status Service.expiresAt Service.set_expiresAt
         Service.set_deliveryStatus Service.set_deliveredAt
         Service.set_accessGrantedAt Service.set_status].
    split.
    + intros [_ [Hnone | [e [He Hle]]]]; [discriminate Hnone |].
      inversion He. subst e. exact Hle.
    + intros Hle. split; [reflexivity |]. right.
      eexists. split; [reflexivity | exact Hle].
  - intros Hd. rewrite (activate_without_duration now s Hd).
    rewrite isAccessible_iff.
    destruct s as [id sid pid st dur tok ag ea la ac da att lda ds de ua].
    cbn [Service.status Service.expiresAt Service.set_expiresAt
         Service.set_deliveryStatus Service.set_deliveredAt
         Service.set_accessGrantedAt Service.set_status].
    split; [intros [_ H]; exact H | intros H; split; [reflexivity | exact H]].
Qed.

Lemma activation_opens_the_window_witness :
  Service.isAccessible (Fixtures.t0 + 30 * Fixtures.day)
    (Service.activate Fixtures.t0 Fixtures.pendingService) = true
  /\ Service.isAccessible Fixtures.t0
       (Service.activate Fixtures.t0
          (Service.mk 3 "SVC_3" (Some 8%nat) "expired" None (Some "ACCESS_1")
             None (Some (Fixtures.t0 - 10 * Fixtures.day)) None 0 None 1 None
             "completed" None Fixtures.t0)) = false.
Proof.
  split.
  - apply (proj1 (activation_opens_the_window Fixtures.t0
                    (Fixtures.t0 + 30 * Fixtures.day) Fixtures.pendingService)
                 30); [reflexivity | discriminate |].
    vm_compute. discriminate.
  - apply not_true_is_false. intros Hacc.
    apply (proj2 (activation_opens_the_window Fixtures.t0 Fixtures.t0 _)) in Hacc;
      [| left; reflexivity].
    destruct Hacc as [Hnone | [e [He Hle]]]; [discriminate Hnone |].
    inversion He. subst e. vm_compute in Hle. apply Hle. reflexivity.
Defined.

(* ================================================================= *)
(** ** What a granted access check stores *)

Lemma activate_keeps_counters (now : Z) (s : Service.t) :
  Service.accessCount (Service.activate now s) = Service.accessCount s
  /\ Service.serviceId (Service.activate now s) = Service.serviceId s.
Proof.
  destruct (activate_cases now s) as [E | [d E]]; rewrite E;
    destruct s; split; reflexivity.
Qed.

(** X9: a granted access check counts once.  For a stored service that
    satisfies its schema and whose payment is completed, with service
    identifiers distinct, [checkServiceAccess] answers 200 and stores that
    service active, with its access counter raised by exactly one and
    [lastAccessedAt] set to the time of the check; every other service, the
    payments and the control numbers are left as they were. *)
Theorem access_check_counts_once :
  forall (now : Z) (db : DB) (s : Service.t),
    find (fun x => (Service.serviceId x =? Service.serviceId s)%string)
         (services db) = Some s ->
    Service.validate s = None ->
    paidFor db s = true ->
    NoDup (map Service._id (services db)) ->
    let (r, db') :=
      ServiceController.checkServiceAccess now (Service.serviceId s) db in
    Claims.answersOk r = true
    /\ Forall2 (accessed now s) (services db) (services db')
    /\ payments db' = payments db
    /\ controlNumbers db' = controlNumbers db.
Proof.
  intros now db s Hfind Hvalid Hpaid Hnd.
  pose proof (find_some _ _ Hfind) as [Hin _].
  assert (Hsame : forall x, In x (services db) ->
                            Service._id x = Service._id s -> x = s).
  { intros x Hx Hid. exact (NoDup_map_inj Service._id _ x s Hnd Hx Hin Hid). }
  unfold ServiceController.checkServiceAccess. run_handler.
  rewrite Hfind. unfold paidFor in Hpaid.
  assert (Hpaid' :
            match
              match Service.paymentId s with
              | Some pid => find (fun p => Nat.eqb (Payment._id p) pid) (payments db)
              | None => None
              end
            with
            | Some p => (Payment.status p =? "completed")%string
            | None => false
            end = true).
  { destruct (Service.paymentId s); [exact Hpaid | discriminate Hpaid]. }
  rewrite Hpaid'. cbn [negb].
  destruct (String.eqb_spec (Service.status s) "active") as [Hact | Hact];
    cbn [negb].
  - assert (Hv : Service.validate (Service.recordAccess now s) = None)
      by exact Hvalid.
    rewrite Hv. cbn [services payments controlNumbers].
    split; [reflexivity |]. split; [| split; reflexivity].
    unfold replaceById. apply Forall2_map_r_in. intros x Hx.
    unfold accessed.
    change (Service._id (Service.preSave now (Service.recordAccess now s)))
      with (Service._id s).
    destruct (Nat.eqb_spec (Service._id x) (Service._id s)) as [Hid | _];
      [| reflexivity].
    rewrite (Hsame x Hx Hid).
    split; [exact Hact |]. split; reflexivity.
  - rewrite validate_activate.
    assert (Hv : Service.validate
                   (Service.recordAccess now
                      (Service.preSave now (Service.activate now s))) = None)
      by exact (validate_activate now s).
    rewrite Hv. cbn [services payments controlNumbers].
    split; [reflexivity |]. split; [| split; reflexivity].
    destruct (status_activate now s) as [Hst Hid].
    destruct (activate_keeps_counters now s) as [Hcount _].
    unfold replaceById. rewrite map_map. apply Forall2_map_r_in. intros x Hx.
    unfold accessed.
    change (Service._id
              (Service.preSave now
                 (Service.recordAccess now
                    (Service.preSave now (Service.activate now s)))))
      with (Service._id (Service.activate now s)).
    change (Service._id (Service.preSave now (Service.activate now s)))
      with (Service._id (Service.activate now s)).
    rewrite !Hid.
    destruct (Nat.eqb_spec (Service._id x) (Service._id s)) as [Hidx | Hidx].
    + change (Service._id (Service.preSave now (Service.activate now s)))
        with (Service._id (Service.activate now s)).
      rewrite Hid, Nat.eqb_refl. rewrite (Hsame x Hx Hidx).
      split; [exact Hst |]. split; [| reflexivity].
      change (Service.accessCount
                (Service.preSave now
                   (Service.recordAccess now
                      (Service.preSave now (Service.activate now s)))))
        with (Service.accessCount (Service.activate now s) + 1).
      rewrite Hcount. reflexivity.
    + destruct (Nat.eqb_spec (Service._id x) (Service._id s)) as [E | _];
        [contradiction | reflexivity].
Qed.

Lemma access_check_counts_once_witness :
  let (r, db') :=
    ServiceController.checkServiceAccess Fixtures.t0
      (Service.serviceId Fixtures.expiredService) Fixtures.ledger in
  Claims.answersOk r = true
  /\ Forall2 (accessed Fixtures.t0 Fixtures.expiredService)
             (services Fixtures.ledger) (services db')
  /\ payments db' = payments Fixtures.ledger
  /\ controlNumbers db' = controlNumbers Fixtures.ledger.
Proof.
  assert (Hfind :
            find (fun x => (Service.serviceId x
                            =? Service.serviceId Fixtures.expiredService)%string)
                 (services Fixtures.ledger) = Some Fixtures.expiredService)
    by (vm_compute; reflexivity).
  assert (Hvalid : Service.validate Fixtures.expiredService = None)
    by (vm_compute; reflexivity).
  assert (Hpaid : paidFor Fixtures.ledger Fixtures.expiredService = true)
    by (vm_compute; reflexivity).
  assert (Hnd : NoDup (map Service._id (services Fixtures.ledger))).
  { vm_compute. repeat constructor; cbn; intuition discriminate. }
  exact (access_check_counts_once Fixtures.t0 Fixtures.ledger
           Fixtures.expiredService Hfind Hvalid Hpaid Hnd).
Defined.

(* ================================================================= *)
(** ** The history and the schema of a payment under [updateStatus] *)

Lemma updateStatus_unchanged_eq (now : Z) (v : JS.value) (msg : string)
      (source : option string) (p : Payment.t) :
  JS.strict_eq (JS.Str (Payment.status p)) v = true ->
  Payment.updateStatus now v msg source p = p.
Proof.
  intros Heq. unfold Payment.updateStatus. rewrite Heq. reflexivity.
Qed.

(** What a call that changes the status leaves of each field. *)
Lemma updateStatus_changed_fields (now : Z) (v : JS.value) (msg : string)
      (source : option string) (p : Payment.t) :
  JS.strict_eq (JS.Str (Payment.status p)) v = false ->
  let p' := Payment.updateStatus now v msg source p in
  Payment.status p' = castString v
  /\ Payment.statusHistory p'
     = (Payment.statusHistory p ++ [Payment.mkEntry (castString v) msg source now])%list
  /\ Payment.paymentStatus p'
     = castString (JS.or (JS.get Payment.zenopayStatusMap (JS.toString v))
                         (JS.Str "PENDING"))
  /\ Payment._id p' = Payment._id p
  /\ Payment.orderId p' = Payment.orderId p
  /\ Payment.reference p' = Payment.reference p
  /\ Payment.externalReference p' = Payment.externalReference p.
Proof.
  intros Hne. cbv zeta. unfold Payment.updateStatus. rewrite Hne. cbn [negb].
  destruct (JS.strict_eq v (JS.Str "completed"));
    [| destruct (JS.strict_eq v (JS.Str "failed"))];
    destruct p; repeat split; reflexivity.
Qed.

(** X10: the history of a payment is append-only.  Whatever value
    [updateStatus] is given, it leaves the identifier, the order id and the
    references of the payment alone and keeps every entry of the history in
    place: when the value is the stored status nothing changes, otherwise
    exactly one entry is appended, which carries the new status, the message,
    the source and the time of the call, so that the stored status is the one
    of the last entry. *)
Theorem history_is_append_only :
  forall (now : Z) (v : JS.value) (msg : string) (source : option string)
         (p : Payment.t),
    let p' := Payment.updateStatus now v msg source p in
    Payment._id p' = Payment._id p
    /\ Payment.orderId p' = Payment.orderId p
    /\ Payment.reference p' = Payment.reference p
    /\ Payment.externalReference p' = Payment.externalReference p
    /\ (if JS.strict_eq (JS.Str (Payment.status p)) v then p' = p
        else
          Payment.statusHistory p'
          = (Payment.statusHistory p
             ++ [Payment.mkEntry (Payment.status p') msg source now])%list
          /\ forall d : string,
               last (map Payment.h_status (Payment.statusHistory p')) d
               = Payment.status p').
Proof.
  intros now v msg source p. cbv zeta.
  destruct (JS.strict_eq (JS.Str (Payment.status p)) v) eqn:Heq.
  - rewrite (updateStatus_unchanged_eq now v msg source p Heq).
    repeat split.
  - destruct (updateStatus_changed_fields now v msg source p Heq)
      as [Hst [Hh [_ [Hid [Ho [Hr He]]]]]].
    split; [exact Hid |]. split; [exact Ho |]. split; [exact Hr |].
    split; [exact He |].
    rewrite Hh, Hst. split; [reflexivity |].
    intros d. rewrite map_app. cbn [map Payment.h_status].
    apply last_last.
Qed.

(** The schema check of a payment whose status was changed. *)
Lemma validate_updated (now : Z) (v : JS.value) (msg : string)
      (source : option string) (p : Payment.t) :
  JS.strict_eq (JS.Str (Payment.status p)) v = false ->
  Payment.validate (Payment.updateStatus now v msg source p)
  = let ps := castString (JS.or (JS.get Payment.zenopayStatusMap (JS.toString v))
                                (JS.Str "PENDING")) in
    if negb (inEnum Payment.paymentStatusEnum ps) then
      Some (EnumError "Payment" "paymentStatus" ps)
    else if negb (inEnum Payment.statusEnum (castString v)) then
      Some (EnumError "Payment" "status" (castString v))
    else Payment.validateHistory
           (Payment.statusHistory p
            ++ [Payment.mkEntry (castString v) msg source now])%list.
Proof.
  intros Hne.
  destruct (updateStatus_changed_fields now v msg source p Hne)
    as [Hst [Hh [Hps _]]].
  unfold Payment.validate. rewrite Hst, Hh, Hps. reflexivity.
Qed.

Lemma inEnum_status_cases (s : string) :
  inEnum Payment.statusEnum s = true ->
  s = "pending" \/ s = "completed" \/ s = "failed" \/ s = "cancelled".
Proof.
  unfold inEnum, Payment.statusEnum. cbn [existsb].
  destruct (String.eqb_spec s "pending") as [E | _]; [left; exact E |].
  destruct (String.eqb_spec s "completed") as [E | _];
    [right; left; exact E |].
  destruct (String.eqb_spec s "failed") as [E | _];
    [right; right; left; exact E |].
  destruct (String.eqb_spec s "cancelled") as [E | _];
    [right; right; right; exact E |].
  cbn [orb]. intros H. discriminate H.
Qed.

(** X11: which status changes keep a payment storable.  For a payment that
    passes the schema and a string different from its status, recorded with a
    source of the schema (or none), the result of [updateStatus] passes the
    schema exactly when the string is one of the four statuses of the enum;
    in that case [paymentStatus] is the upper-case form of the new status and
    [isCompleted] holds exactly for "completed". *)
Theorem updateStatus_stays_valid_iff_enum :
  forall (now : Z) (s msg : string) (source : option string) (p : Payment.t),
    Payment.validate p = None ->
    s <> Payment.status p ->
    match source with
    | Some x => inEnum Payment.sourceEnum x = true
    | None => True
    end ->
    let p' := Payment.updateStatus now (JS.Str s) msg source p in
    (Payment.validate p' = None <-> inEnum Payment.statusEnum s = true)
    /\ (inEnum Payment.statusEnum s = true ->
        Payment.paymentStatus p' = JS.toUpperCase s
        /\ Payment.isCompleted p' = (s =? "completed")%string).
Proof.
  intros now s msg source p Hvalid Hne Hsrc. cbv zeta.
  assert (Hse : JS.strict_eq (JS.Str (Payment.status p)) (JS.Str s) = false).
  { rewrite strict_eq_str. apply String.eqb_neq. intros E. apply Hne.
    symmetry. exact E. }
  assert (Hhist : Payment.validateHistory (Payment.statusHistory p) = None).
  { unfold Payment.validate in Hvalid.
    destruct (negb (inEnum Payment.paymentStatusEnum (Payment.paymentStatus p)));
      [discriminate Hvalid |].
    destruct (negb (inEnum Payment.statusEnum (Payment.status p)));
      [discriminate Hvalid | exact Hvalid]. }
  assert (Hps : inEnum Payment.statusEnum s = true ->
                castString (JS.or (JS.get Payment.zenopayStatusMap
                                          (JS.toString (JS.Str s)))
                                  (JS.Str "PENDING"))
                = JS.toUpperCase s).
  { intros Hin.
    destruct (inEnum_status_cases s Hin) as [E | [E | [E | E]]];
      rewrite E; vm_compute; reflexivity. }
  split.
  - rewrite (validate_updated now (JS.Str s) msg source p Hse). cbv zeta.
    split.
    + intros Hv.
      destruct (negb (inEnum Payment.paymentStatusEnum _));
        [discriminate Hv |].
      change (castString (JS.Str s)) with s in Hv.
      destruct (inEnum Payment.statusEnum s); [reflexivity |].
      discriminate Hv.
    + intros Hin. rewrite (Hps Hin).
      change (castString (JS.Str s)) with s. rewrite Hin. cbn [negb].
      assert (Hup : inEnum Payment.paymentStatusEnum (JS.toUpperCase s) = true).
      { destruct (inEnum_status_cases s Hin) as [E | [E | [E | E]]];
          rewrite E; vm_compute; reflexivity. }
      rewrite Hup. cbn [negb].
      rewrite validateHistory_app, Hhist.
      cbn [Payment.validateHistory]. unfold Payment.validateEntry.
      cbn [Payment.h_status Payment.h_source]. rewrite Hin. cbn [negb].
      destruct source as [x |]; [rewrite Hsrc |]; reflexivity.
  - intros Hin.
    destruct (updateStatus_changed_fields now (JS.Str s) msg source p Hse)
      as [Hst [_ [Hpst _]]].
    split.
    + rewrite Hpst. apply Hps. exact Hin.
    + unfold Payment.isCompleted. rewrite Hst, Hpst, (Hps Hin).
      change (castString (JS.Str s)) with s.
      destruct (inEnum_status_cases s Hin) as [E | [E | [E | E]]];
        rewrite E; vm_compute; reflexivity.
Qed.

Lemma updateStatus_stays_valid_iff_enum_witness :
  let p' := Payment.updateStatus Fixtures.t0 (JS.Str "failed") "declined"
                                 (Some "webhook") Fixtures.pendingPayment in
  (Payment.validate p' = None <-> inEnum Payment.statusEnum "failed" = true)
  /\ (inEnum Payment.statusEnum "failed" = true ->
      Payment.paymentStatus p' = JS.toUpperCase "failed"
      /\ Payment.isCompleted p' = ("failed" =? "completed")%string).
Proof.
  apply (updateStatus_stays_valid_iff_enum Fixtures.t0 "failed" "declined"
           (Some "webhook") Fixtures.pendingPayment).
  - vm_compute. reflexivity.
  - vm_compute. discriminate.
  - vm_compute. reflexivity.
Defined.

(* ================================================================= *)
(** ** What a webhook request can write *)





(* ================================================================= *)
(** ** The status words of the bank and the table of the webhook *)

Lemma eqb_key_false (k s : string) : s <> k -> (k =? s)%string = false.
Proof.
  intros H. apply String.eqb_neq. intros E. apply H. symmetry. exact E.
Qed.



Ltac split_on_key s k :=
  destruct (String.eqb_spec s k) as [-> | ?];
  [vm_compute; first [reflexivity | split; [reflexivity | discriminate]] |].

(** X13: the two status tables.  The table of the webhook and the table of
    the bank service give the same internal status for every word except
    IN_PROGRESS, SUCCESSFUL, SETTLED, REJECTED and RETURNED: these five the
    webhook reads as "pending", while the bank service reads none of them as
    "pending". *)
Theorem webhook_table_misses_five_bank_words :
  forall s : string,
    if inEnum bankOnlyStatuses s then
      WebhookController.mapStatus s = JS.Str "pending"
      /\ BankPaymentService.mapStatus s <> JS.Str "pending"
    else WebhookController.mapStatus s = BankPaymentService.mapStatus s.
Proof.
  intros s.
  split_on_key s "IN_PROGRESS". split_on_key s "SUCCESSFUL".
  split_on_key s "SETTLED". split_on_key s "REJECTED".
  split_on_key s "RETURNED". split_on_key s "INITIATED".
  split_on_key s "PENDING". split_on_key s "PROCESSING".
  split_on_key s "COMPLETED". split_on_key s "FAILED".
  split_on_key s "CANCELLED".
  assert (Hin : inEnum bankOnlyStatuses s = false).
  { unfold inEnum, bankOnlyStatuses. cbn [existsb].
    repeat match goal with
           | H : s <> ?k |- context [(s =? ?k)%string] =>
               rewrite (proj2 (String.eqb_neq s k) H)
           end.
    reflexivity. }
  rewrite Hin.
  unfold WebhookController.mapStatus, BankPaymentService.mapStatus, JS.get,
    WebhookController.statusMap, BankPaymentService.statusMap.
  cbn [JS.assoc].
  repeat match goal with
         | H : s <> ?k |- context [(?k =? s)%string] =>
             rewrite (eqb_key_false k s H)
         end.
  reflexivity.
Qed.



(* ================================================================= *)
(** ** Transactions: the retry budget and the identifier of a reversal *)

Lemma iter_incrementRetryCount (k : nat) (tx : Transaction.t) :
  Transaction.status (Nat.iter k Transaction.incrementRetryCount tx)
  = Transaction.status tx
  /\ Transaction.retryCount (Nat.iter k Transaction.incrementRetryCount tx)
     = Transaction.retryCount tx + Z.of_nat k.
Proof.
  induction k as [| k [IHs IHc]].
  - cbn [Nat.iter nat_rect]. split; [reflexivity | lia].
  - change (Nat.iter (S k) Transaction.incrementRetryCount tx)
      with (Transaction.incrementRetryCount
              (Nat.iter k Transaction.incrementRetryCount tx)).
    unfold Transaction.incrementRetryCount at 1 3.
    cbn [Transaction.status Transaction.retryCount].
    split; [exact IHs | rewrite IHc; lia].
Qed.

(** X15: the retry budget of a transaction.  [incrementRetryCount] leaves
    the status alone, so after [k] increments [canRetry] holds exactly when
    the transaction is failed and its original count plus [k] is below
    three; and whenever [canRetry] holds, one more increment keeps the count
    within the maximum that the schema puts on [retryCount]. *)
Theorem retry_budget_is_three :
  forall (k : nat) (tx : Transaction.t),
    let tx' := Nat.iter k Transaction.incrementRetryCount tx in
    Transaction.canRetry tx'
    = (Transaction.status tx =? "failed")%string
      && (Transaction.retryCount tx + Z.of_nat k <? 3)
    /\ (Transaction.canRetry tx' = true ->
        Transaction.retryCount (Transaction.incrementRetryCount tx')
        <= retryCountMax).
Proof.
  intros k tx. cbv zeta.
  destruct (iter_incrementRetryCount k tx) as [Hs Hc].
  split.
  - unfold Transaction.canRetry. rewrite Hs, Hc. reflexivity.
  - set (tx' := Nat.iter k Transaction.incrementRetryCount tx).
    unfold Transaction.canRetry. intros H.
    apply andb_true_iff in H. destruct H as [_ H].
    apply Z.ltb_lt in H.
    unfold Transaction.incrementRetryCount, retryCountMax.
    cbn [Transaction.retryCount]. lia.
Qed.

Lemma substring_whole (s : string) :
  String.substring 0 (String.length s) s = s.
Proof.
  induction s as [| c s IH]; [reflexivity |].
  cbn [String.length String.substring]. rewrite IH. reflexivity.
Qed.

Lemma substring3_TXN (s : string) :
  Transaction.substring3 ("TXN" ++ s) = s.
Proof.
  unfold Transaction.substring3.
  cbn [String.append String.length Nat.sub String.substring].
  rewrite Nat.sub_0_r. apply substring_whole.
Qed.

Lemma append_injective (p a b : string) :
  (p ++ a)%string = (p ++ b)%string -> a = b.
Proof.
  induction p as [| c p IH]; cbn [String.append]; intros H.
  - exact H.
  - apply IH. injection H as H. exact H.
Qed.

(** X16: the identifier of a reversal.  For a transaction whose identifier
    has the generated form TXN..., [reverse] returns the identifier with
    the prefix REV in place of TXN, whatever the reason and the amount: two
    reversals carry the same identifier exactly when they reverse
    transactions with the same identifier, so that a second (partial)
    reversal of one transaction repeats the identifier of the first.  The
    parties are swapped and the original is referenced. *)
Theorem reversal_id_follows_the_original :
  forall (reason1 reason2 : string) (amt1 amt2 : option Z)
         (tx1 tx2 : Transaction.t) (s1 s2 : string),
    Transaction.transactionId tx1 = ("TXN" ++ s1)%string ->
    Transaction.transactionId tx2 = ("TXN" ++ s2)%string ->
    let r1 := Transaction.reverse reason1 amt1 tx1 in
    let r2 := Transaction.reverse reason2 amt2 tx2 in
    Transaction.r_transactionId r1 = ("REV" ++ s1)%string
    /\ (Transaction.r_transactionId r1 = Transaction.r_transactionId r2
        <-> Transaction.transactionId tx1 = Transaction.transactionId tx2)
    /\ Transaction.r_from r1 = Transaction.to tx1
    /\ Transaction.r_to r1 = Transaction.from tx1
    /\ Transaction.r_originalTransaction r1 = Transaction._id tx1.
Proof.
  intros reason1 reason2 amt1 amt2 tx1 tx2 s1 s2 H1 H2. cbv zeta.
  unfold Transaction.reverse. cbn [Transaction.r_transactionId
    Transaction.r_from Transaction.r_to Transaction.r_originalTransaction].
  rewrite H1, H2, !substring3_TXN.
  split; [reflexivity |]. split; [| repeat split].
  split; intros H.
  - apply (append_injective "REV") in H. rewrite H. reflexivity.
  - apply (append_injective "TXN") in H. rewrite H. reflexivity.
Qed.

Lemma reversal_id_follows_the_original_witness :
  let r1 := Transaction.reverse "refund" (Some 2000)
                                Fixtures.settledTransaction in
  let r2 := Transaction.reverse "chargeback" None Fixtures.otherTransaction in
  Transaction.r_transactionId r1 = ("REV" ++ "1767225600000K3QZ")%string
  /\ (Transaction.r_transactionId r1 = Transaction.r_transactionId r2
      <-> Transaction.transactionId Fixtures.settledTransaction
          = Transaction.transactionId Fixtures.otherTransaction)
  /\ Transaction.r_from r1 = Transaction.to Fixtures.settledTransaction
  /\ Transaction.r_to r1 = Transaction.from Fixtures.settledTransaction
  /\ Transaction.r_originalTransaction r1
     = Transaction._id Fixtures.settledTransaction.
Proof.
  apply (reversal_id_follows_the_original "refund" "chargeback" (Some 2000)
           None Fixtures.settledTransaction Fixtures.otherTransaction
           "1767225600000K3QZ" "1767225600500M8TB").
  - reflexivity.
  - reflexivity.
Defined.

(* ================================================================= *)
(** ** The statistics of a merchant *)

Lemma updateStats_counters (amount : Z) (status : string)
      (st : User.Statistics) :
  let st' := User.updateStats amount status st in
  User.totalTransactions st' = User.totalTransactions st + 1
  /\ User.successfulTransactions st'
     = User.successfulTransactions st
       + (if (status =? "completed")%string then 1 else 0)
  /\ User.failedTransactions st'
     = User.failedTransactions st
       + (if (status =? "failed")%string then 1 else 0).
Proof.
  cbv zeta. unfold User.updateStats.
  destruct (String.eqb_spec status "completed") as [E | _].
  - rewrite E. cbn. repeat split; lia.
  - destruct (status =? "failed")%string; cbn; repeat split; lia.
Qed.

(** X17: the counters of a merchant stay consistent.  After [updateStats]
    has been called for any sequence of transactions, the total has grown
    by their number, the successful and failed counters by the numbers of
    completed and of failed transactions, and the two together still do not
    exceed the total when they did not before. *)
Theorem stats_counters_stay_consistent :
  forall (l : list (Z * string)) (st : User.Statistics),
    User.successfulTransactions st + User.failedTransactions st
    <= User.totalTransactions st ->
    let st' := recordAll l st in
    User.totalTransactions st'
    = User.totalTransactions st + Z.of_nat (length l)
    /\ User.successfulTransactions st'
       = User.successfulTransactions st + countStatus "completed" l
    /\ User.failedTransactions st'
       = User.failedTransactions st + countStatus "failed" l
    /\ User.successfulTransactions st' + User.failedTransactions st'
       <= User.totalTransactions st'.
Proof.
  unfold recordAll, countStatus.
  induction l as [| [amount status] l IH]; intros st Hinv; cbv zeta.
  - cbn [fold_left filter length]. repeat split; lia.
  - cbn [fold_left fst snd filter].
    destruct (updateStats_counters amount status st) as [Ht [Hs Hf]].
    assert (Hinv' : User.successfulTransactions (User.updateStats amount status st)
                    + User.failedTransactions (User.updateStats amount status st)
                    <= User.totalTransactions (User.updateStats amount status st)).
    { rewrite Ht, Hs, Hf.
      destruct (String.eqb_spec status "completed") as [E | _].
      - rewrite E. cbn. lia.
      - destruct (status =? "failed")%string; lia. }
    destruct (IH (User.updateStats amount status st) Hinv')
      as [Ht' [Hs' [Hf' Hle]]].
    rewrite Ht', Hs', Hf' in Hle |- *. rewrite Ht, Hs, Hf in Hle |- *.
    destruct (String.eqb_spec status "completed") as [E | _].
    + rewrite E in *. cbn [String.eqb Ascii.eqb Bool.eqb length] in *.
      repeat split; lia.
    + destruct (status =? "failed")%string; cbn [length] in *;
        repeat split; lia.
Qed.

Lemma stats_counters_stay_consistent_witness :
  let st := User.mkStatistics 2 7000 1 1 in
  let st' := recordAll [(5000, "completed"); (1200, "failed");
                        (300, "pending")] st in
  User.totalTransactions st' = User.totalTransactions st + Z.of_nat 3
  /\ User.successfulTransactions st'
     = User.successfulTransactions st
       + countStatus "completed" [(5000, "completed"); (1200, "failed");
                                  (300, "pending")]
  /\ User.failedTransactions st'
     = User.failedTransactions st
       + countStatus "failed" [(5000, "completed"); (1200, "failed");
                               (300, "pending")]
  /\ User.successfulTransactions st' + User.failedTransactions st'
     <= User.totalTransactions st'.
Proof.
  apply (stats_counters_stay_consistent
           [(5000, "completed"); (1200, "failed"); (300, "pending")]
           (User.mkStatistics 2 7000 1 1)).
  vm_compute. discriminate.
Defined.

(* ================================================================= *)
(** ** Redemption through the service *)

Lemma of_lu_bound (d : Decimal.uint) :
  (DecimalPos.Unsigned.of_lu d < 10 ^ N.of_nat (Decimal.nb_digits d))%N.
Proof.
  induction d; cbn [DecimalPos.Unsigned.of_lu Decimal.nb_digits];
    try (rewrite Nnat.Nat2N.inj_succ, N.pow_succ_r'; lia).
  cbn. lia.
Qed.

Lemma string_of_uint_length (d : Decimal.uint) :
  String.length (NilEmpty.string_of_uint d) = Decimal.nb_digits d.
Proof.
  induction d; cbn [NilEmpty.string_of_uint String.length Decimal.nb_digits];
    congruence.
Qed.

(** The decimal form of a time of a hundred million milliseconds or more
    has at least nine digits. *)
Lemma showZ_digits (now : Z) :
  100000000 <= now -> (9 <= String.length (JS.showZ now))%nat.
Proof.
  intros Hnow. destruct now as [| p | p]; try lia.
  unfold JS.showZ. cbn [Z.to_int NilZero.string_of_int].
  pose proof (DecimalPos.Unsigned.to_uint_nonnil p) as Hnil.
  unfold NilZero.string_of_uint.
  destruct (Pos.to_uint p) as [| | | | | | | | | |] eqn:E;
    [contradiction Hnil; reflexivity | ..];
    rewrite <- E, string_of_uint_length;
    pose proof (of_lu_bound (Decimal.rev (Pos.to_uint p))) as Hb;
    rewrite <- DecimalPos.Unsigned.of_uint_alt, DecimalPos.Unsigned.of_to,
      DecimalFacts.nb_digits_rev in Hb;
    (destruct (Nat.le_gt_cases 9 (Decimal.nb_digits (Pos.to_uint p)))
      as [Hle | Hgt]; [exact Hle | exfalso]);
    assert (Hpow : (10 ^ N.of_nat (Decimal.nb_digits (Pos.to_uint p))
                    <= 10 ^ 8)%N)
      by (apply N.pow_le_mono_r; lia);
    change (10 ^ 8)%N with 100000000%N in Hpow; lia.
Qed.

Lemma reference_is_no_ObjectId (code : string) (now : Z) :
  100000000 <= now ->
  castObjectId (ControlNumberService.makePaymentReference code now) = false.
Proof.
  intros Hnow. pose proof (showZ_digits now Hnow) as Hdigits.
  rewrite castObjectId_reference.
  unfold ControlNumberService.makePaymentReference.
  rewrite !append_length. cbn [String.length].
  apply Nat.eqb_neq. lia.
Qed.

(** X18: the service cannot redeem a code.  The payment reference that
    [ControlNumberService.useControlNumber] builds, [CN_<code>_<time>], is
    no ObjectId once the clock reads a hundred million milliseconds or more
    (any time after the second day of 1970), and the path
    [paymentReference] of the schema is an ObjectId: every call throws and
    leaves the database as it was.  For a code that is found and can
    be used, the error is the failed cast of that reference. *)
Theorem service_redemption_always_fails :
  forall (now : Z) (code : string)
         (paymentData : ControlNumberService.PaymentData) (db : DB),
    100000000 <= now ->
    (exists e,
        ControlNumberService.useControlNumber now code paymentData db
        = (inl (Prefixed "Failed to use control number: " e), db))
    /\ (forall cn,
           find (ControlNumberService.activeQuery code) (controlNumbers db)
           = Some cn ->
           ControlNumber.canBeUsed now cn = true ->
           ControlNumberService.useControlNumber now code paymentData db
           = (inl (Prefixed "Failed to use control number: "
                     (CastError "ControlNumber" "paymentReference"
                        (ControlNumberService.makePaymentReference code now))),
              db)).
Proof.
  intros now code pd db Hdigits.
  pose proof (reference_is_no_ObjectId code now Hdigits) as Hcast.
  rewrite useControlNumber_eq.
  destruct (find (ControlNumberService.activeQuery code) (controlNumbers db))
    as [cn |].
  2:{ split; [eexists; reflexivity |]. intros cn H. discriminate H. }
  destruct (ControlNumber.canBeUsed now cn) eqn:Husable; cbn [negb].
  2:{ split; [eexists; reflexivity |]. intros cn' Hsome Hu.
      injection Hsome as <-. rewrite Husable in Hu. discriminate Hu. }
  assert (Hactive : ControlNumber.status cn = "active").
  { apply canBeUsed_active in Husable. exact Husable. }
  rewrite (markAsUsed_reference now
             (Some (ControlNumberService.makePaymentReference code now))).
  destruct (markAsUsed_active now None
              (ControlNumber.mkUsedBy (ControlNumberService.customerName pd)
                 (ControlNumberService.phoneNumber pd)
                 (ControlNumberService.network pd)) cn Hactive)
    as [c [Hmark [Hstatus _]]].
  rewrite Hmark, validate_set_paymentReference, Hstatus, Hcast.
  change (negb (inEnum ControlNumber.statusEnum "used")) with false.
  cbv iota.
  split; [eexists; reflexivity |]. intros cn' _ _. reflexivity.
Qed.

Lemma service_redemption_always_fails_witness :
  (exists e,
      ControlNumberService.useControlNumber Fixtures.t0 "ZENO25600000K3QZ"
        Fixtures.noPaymentData Fixtures.registry
      = (inl (Prefixed "Failed to use control number: " e), Fixtures.registry))
  /\ (forall cn,
         find (ControlNumberService.activeQuery "ZENO25600000K3QZ")
              (controlNumbers Fixtures.registry)
         = Some cn ->
         ControlNumber.canBeUsed Fixtures.t0 cn = true ->
         ControlNumberService.useControlNumber Fixtures.t0 "ZENO25600000K3QZ"
           Fixtures.noPaymentData Fixtures.registry
         = (inl (Prefixed "Failed to use control number: "
                   (CastError "ControlNumber" "paymentReference"
                      (ControlNumberService.makePaymentReference
                         "ZENO25600000K3QZ" Fixtures.t0))),
            Fixtures.registry)).
Proof.
  apply (service_redemption_always_fails Fixtures.t0 "ZENO25600000K3QZ"
           Fixtures.noPaymentData Fixtures.registry).
  vm_compute. discriminate.
Defined.

(* ================================================================= *)
(** ** The required fields of a bank callback *)

Lemma checkFields_spec (data : BankPaymentService.CallbackData)
      (fields : list string) :
  BankPaymentService.checkFields data fields
  = match find (fun f => negb (JS.truthy_opt (BankPaymentService.field data f)))
               fields with
    | Some f => inl (Err ("Missing required field: " ++ f))
    | None => inr tt
    end.
Proof.
  induction fields as [| f rest IH]; [reflexivity |].
  cbn [BankPaymentService.checkFields find].
  destruct (negb (JS.truthy_opt (BankPaymentService.field data f)));
    [reflexivity | exact IH].
Qed.

(** X19: the required fields of a bank callback.  [validateCallbackData]
    accepts a callback exactly when [reference], [status] and
    [transactionId] are all present and non-empty; otherwise it throws, and
    the message names the first of the three, in that order, that is
    missing or empty. *)
Theorem callback_needs_three_nonempty_fields :
  forall data : BankPaymentService.CallbackData,
    let present f := JS.truthy_opt (BankPaymentService.field data f) in
    (BankPaymentService.validateCallbackData data = inr tt
     <-> present "reference" && present "status" && present "transactionId"
         = true)
    /\ (forall e, BankPaymentService.validateCallbackData data = inl e ->
        exists f,
          e = Err ("Missing required field: " ++ f)
          /\ find (fun f => negb (present f)) BankPaymentService.requiredFields
             = Some f
          /\ In f BankPaymentService.requiredFields
          /\ present f = false).
Proof.
  intros data. cbv zeta.
  unfold BankPaymentService.validateCallbackData.
  rewrite checkFields_spec.
  split.
  - unfold BankPaymentService.requiredFields. cbn [find].
    destruct (JS.truthy_opt (BankPaymentService.field data "reference"));
      cbn [negb andb];
      [| split; intros H; discriminate H].
    destruct (JS.truthy_opt (BankPaymentService.field data "status"));
      cbn [negb andb];
      [| split; intros H; discriminate H].
    destruct (JS.truthy_opt (BankPaymentService.field data "transactionId"));
      cbn [negb andb];
      [| split; intros H; discriminate H].
    split; reflexivity.
  - intros e He.
    destruct (find _ BankPaymentService.requiredFields) as [f |] eqn:Hfind;
      [| discriminate He].
    injection He as <-. exists f.
    split; [reflexivity |]. split; [reflexivity |].
    apply find_some in Hfind. destruct Hfind as [Hin Hmiss].
    split; [exact Hin |].
    apply negb_true_iff in Hmiss. exact Hmiss.
Qed.
